(** * NetMonitor Pro: a shallow embedding of the monitoring engine

    The development follows the Python sources module by module:

    - [PyStr]    the [str] methods the ping parsers rely on;
    - [Monitor]  [monitor.py]: [PingMonitor], [BandwidthMonitor],
                 [NetworkMonitor];
    - [App]      [app.py]: [ConnectionManager], [ping_task] and the
                 target administration handlers;
    - [Reporting], [Admin], [Database]  the remaining functions of
                 [monitor.py], [app.py] and [database.py].

    Conventions.  Python [float] values are idealised as exact rationals
    ([Q]); Python [int] values are [Z]; [str] is [string]; [Optional] is
    [option]; a [dict] used as a map is a [gmap], a [dict] used as a JSON
    object with optional keys is a record of [option] fields; a [set] is a
    [gset].  Everything the code obtains from its environment (the [ping]
    subprocess, [psutil], [time.time], the websocket transport) is an
    explicit argument.  So is what the code awaits: a save in the database
    returns or raises, and while a websocket send is awaited other tasks
    may change the set of connections.  [str.lower] folds the letters of
    every script; on target names it is a parameter, and only the ping
    parsers, which look for ASCII words, use the ASCII folding of [PyStr].
    The [timestamp] fields, filled by [datetime.now] when
    a result object is built, are read by no operation below and are left
    out of the records. *)

From Stdlib Require Import ZArith QArith Qabs Ascii String List Lia.
From stdpp Require Import gmap strings list pretty.

Local Open Scope string_scope.

(** ** Python string methods *)

Module PyStr.

(** [str.lower] as the ping parsers use it, to look for the ASCII words
    [avg], [rtt] and [loss] in a line: the letters A to Z are folded.  The
    handlers of app.py compare target names, which may hold any letters;
    there [str.lower] is a parameter (see [App] and [Admin]). *)
Definition lower_ascii (c : ascii) : ascii :=
  let n := nat_of_ascii c in
  if ((65 <=? n)%nat && (n <=? 90)%nat)%bool then ascii_of_nat (n + 32) else c.

Fixpoint lower (s : string) : string :=
  match s with
  | EmptyString => EmptyString
  | String c r => String (lower_ascii c) (lower r)
  end.

(** [needle in hay]. *)
Fixpoint contains (needle hay : string) : bool :=
  if String.prefix needle hay then true
  else match hay with
       | EmptyString => false
       | String _ r => contains needle r
       end.

(** [s.split(sep)] for a one-character separator: the result is never
    empty, and consecutive separators delimit empty fields. *)
Fixpoint split (sep : ascii) (s : string) : list string :=
  match s with
  | EmptyString => [EmptyString]
  | String c r =>
      if Ascii.eqb c sep then EmptyString :: split sep r
      else match split sep r with
           | [] => [String c EmptyString]
           | f :: fs => String c f :: fs
           end
  end.

(** The characters [str.strip] and [str.split] treat as white space:
    space, the controls 9 to 13 and the separators 28 to 31. *)
Definition is_space (c : ascii) : bool :=
  let n := nat_of_ascii c in
  ((n =? 32)%nat || ((9 <=? n)%nat && (n <=? 13)%nat)
   || ((28 <=? n)%nat && (n <=? 31)%nat))%bool.

Fixpoint lstrip (s : string) : string :=
  match s with
  | EmptyString => EmptyString
  | String c r => if is_space c then lstrip r else s
  end.

(** [rstrip] keeps a character when it is not a space or when something
    survives to its right. *)
Fixpoint rstrip (s : string) : string :=
  match s with
  | EmptyString => EmptyString
  | String c r =>
      match rstrip r with
      | EmptyString => if is_space c then EmptyString else String c EmptyString
      | r' => String c r'
      end
  end.

Definition strip (s : string) : string := rstrip (lstrip s).

(** [s.split()] without argument: the maximal runs of non-space
    characters.  [cur] is the run being read, in reverse. *)
Fixpoint words_from (cur : list ascii) (s : string) : list string :=
  let flush := match cur with
               | [] => []
               | _ => [string_of_list_ascii (rev cur)]
               end in
  match s with
  | EmptyString => flush
  | String c r =>
      if is_space c then flush ++ words_from [] r
      else words_from (c :: cur) r
  end.

Definition split_ws (s : string) : list string := words_from [] s.

(** [s.replace(old, new)] for a non-empty [old]: left to right, without
    overlap.  [skip] counts the characters of a match still to be
    dropped. *)
Fixpoint replace_from (old new : string) (skip : nat) (s : string) : string :=
  match s with
  | EmptyString => EmptyString
  | String c r =>
      match skip with
      | S k => replace_from old new k r
      | O =>
          if String.prefix old s
          then new ++ replace_from old new (String.length old - 1) r
          else String c (replace_from old new 0 r)
      end
  end.

Definition replace (old new s : string) : string :=
  match old with
  | EmptyString => s
  | _ => replace_from old new 0 s
  end.

(** [len(parts) >= 2]. *)
Definition at_least_two {A} (l : list A) : bool :=
  match l with
  | _ :: _ :: _ => true
  | _ => false
  end.

End PyStr.

(** ** Exceptions

    The exceptions the modelled code can raise or catch.  [Ret] is normal
    completion. *)

Inductive exn : Type :=
| KeyError (key : string)
| ZeroDivisionError
| HTTPException (status_code : Z) (detail : string)
| RuntimeError (message : string)
| OtherError.

Inductive res (A : Type) : Type :=
| Ret (a : A)
| Raise (e : exn).
Arguments Ret {A} a.
Arguments Raise {A} e.

Definition res_bind {A B} (r : res A) (k : A -> res B) : res B :=
  match r with
  | Ret a => k a
  | Raise e => Raise e
  end.

(** Comparisons of Python numbers, on the rational idealisation. *)
Definition Qgtb (x y : Q) : bool := negb (Qle_bool x y).
Definition Qnonzero (x : Q) : bool := negb (Qeq_bool x 0).

(** [max(0, x)]: the second argument wins only when it is strictly
    greater. *)
Definition max0 (x : Q) : Q := if Qgtb x 0 then x else 0%Q.

(** A [for] loop whose body may leave the enclosing function ([return] or
    [raise]): the first element, in order, at which the body [f] does so;
    [None] when the loop runs to its end. *)
Fixpoint first_return {A B} (f : A -> option B) (l : list A) : option B :=
  match l with
  | [] => None
  | x :: r => match f x with
              | Some b => Some b
              | None => first_return f r
              end
  end.

(** ** monitor.py *)

Module Monitor.
Import PyStr.

(** *** Data classes *)

Record PingResult := {
  target_name : string;
  target_ip : string;
  latency_ms : option Q;
  packet_loss : Q;
  status : string  (* 'success', 'timeout', 'error' and, from [ping], 'partial' *)
}.

Record BandwidthMeasurement := {
  gateway_name : string;
  interface : string;
  bytes_sent : Z;
  bytes_recv : Z;
  bytes_sent_rate : Q;
  bytes_recv_rate : Q
}.

(** *** The configuration dictionary

    [config.json] as the code reads it.  A key read with [.get] may be
    missing ([None]); a key read with [[...]] raises [KeyError] when it
    is. *)

Record target := {
  tgt_name : string;            (* t['name'] *)
  tgt_ip : string;              (* t['ip'] *)
  tgt_type : option string;     (* t.get('type') *)
  tgt_enabled : option bool     (* t.get('enabled', True) *)
}.

Record gateway := {
  gw_name : string;
  gw_interface : string;
  gw_enabled : option bool
}.

Record alerts_config := {
  alerts_enabled : option bool;                   (* 'enabled' *)
  ping_threshold_ms : option Q;                   (* 'ping_threshold_ms' *)
  packet_loss_threshold_percent : option Q        (* 'packet_loss_threshold_percent' *)
}.

Record config := {
  targets : option (list target);
  gateways : option (list gateway);
  alerts : option alerts_config
}.

(** *** What the monitors print and launch *)

Inductive diagnostic :=
| PingError (ip : string)
| InterfaceNotFound (interface : string) (available : list string)
| BandwidthError (interface : string).

Inductive effect :=
| Exec (cmd : list string) (deadline : Z)
| Print (d : diagnostic).

(** *** BandwidthMonitor *)

(** One entry of [psutil.net_io_counters(pernic=True)]. *)
Record snetio := { io_bytes_sent : Z; io_bytes_recv : Z }.

(** What one call of [measure] observes of the operating system: the
    counters read at its first line, the counters read again by
    [get_available_interfaces] on the missing-interface path, and
    [time.time()].  A [psutil] call may raise. *)
Record os_view := {
  net_io_counters : res (gmap string snetio);
  net_io_counters_again : res (gmap string snetio);
  time_time : Q
}.

Record BandwidthMonitor := {
  last_measurements : gmap string (Z * Z * Q);  (* interface -> (sent, recv, timestamp) *)
  current_rates : gmap string BandwidthMeasurement
}.

(** [int / float]: raises on a zero divisor. *)
Definition truediv (a : Z) (b : Q) : res Q :=
  if Qeq_bool b 0 then Raise ZeroDivisionError else Ret (inject_Z a / b)%Q.

Definition get_available_interfaces (again : res (gmap string snetio)) : res (list string) :=
  res_bind again (fun stats => Ret (map fst (map_to_list stats))).

Definition zero_measurement (gateway_name interface : string) : BandwidthMeasurement :=
  {| gateway_name := gateway_name; interface := interface;
     bytes_sent := 0; bytes_recv := 0;
     bytes_sent_rate := 0; bytes_recv_rate := 0 |}.

(** The [try] block of [measure].  No field of [self] is assigned before
    the last statement that can raise, so an exception leaves [self] as
    it was. *)
Definition measure_try (os : os_view) (gateway_name interface : string)
    (self : BandwidthMonitor)
  : res (BandwidthMeasurement * BandwidthMonitor * list effect) :=
  res_bind (net_io_counters os) (fun stats =>
  match stats !! interface with
  | None =>
      res_bind (get_available_interfaces (net_io_counters_again os)) (fun available =>
      Ret (zero_measurement gateway_name interface, self,
           [Print (InterfaceNotFound interface available)]))
  | Some nic =>
      let current_sent := io_bytes_sent nic in
      let current_recv := io_bytes_recv nic in
      let current_time := time_time os in
      res_bind
        (match last_measurements self !! interface with
         | Some (last_sent, last_recv, last_time) =>
             let time_diff := (current_time - last_time)%Q in
             if Qgtb time_diff 0 then
               res_bind (truediv (current_sent - last_sent) time_diff) (fun sent_rate =>
               res_bind (truediv (current_recv - last_recv) time_diff) (fun recv_rate =>
               Ret (sent_rate, recv_rate)))
             else Ret (0%Q, 0%Q)
         | None => Ret (0%Q, 0%Q)
         end)
        (fun '(sent_rate, recv_rate) =>
           let last' := <[interface := (current_sent, current_recv, current_time)]>
                          (last_measurements self) in
           let measurement :=
             {| gateway_name := gateway_name; interface := interface;
                bytes_sent := current_sent; bytes_recv := current_recv;
                bytes_sent_rate := max0 sent_rate;
                bytes_recv_rate := max0 recv_rate |} in
           Ret (measurement,
                {| last_measurements := last';
                   current_rates := <[gateway_name := measurement]> (current_rates self) |},
                []))
  end).

(** [measure]: the [try] block with its [except Exception] handler. *)
Definition measure (os : os_view) (gateway_name interface : string)
    (self : BandwidthMonitor)
  : BandwidthMeasurement * BandwidthMonitor * list effect :=
  match measure_try os gateway_name interface self with
  | Ret r => r
  | Raise _ => (zero_measurement gateway_name interface, self,
                [Print (BandwidthError interface)])
  end.

(** *** PingMonitor *)

(** What [asyncio.create_subprocess_exec] followed by
    [asyncio.wait_for(process.communicate(), ...)] and [stdout.decode()]
    can do: deliver the decoded output, run into the deadline
    ([asyncio.TimeoutError]) or fail with any other [Exception]. *)
Inductive communicate :=
| Output (stdout : string)
| TimeoutError
| Failed.

Section Prober.

(** The builtin [float(str)]; [None] stands for [ValueError]. *)
Variable float : string -> option Q.

(** [platform.system().lower()]. *)
Variable system : string.

(** The subprocess: from the command line and the overall deadline to
    what the [await]s deliver. *)
Variable exec : list string -> Z -> communicate.

Definition newline : ascii := ascii_of_nat 10.

(** Body of the Windows loop of [_parse_latency] for one line:
    [Some r] when the line makes the function finish with [r]
    ([float] raising [ValueError] finishes with [None] through the
    [except] clause), [None] when the loop goes on. *)
Definition latency_line_windows (line : string) : option (option Q) :=
  if contains "Average" line then
    let parts := split "=" line in
    if at_least_two parts
    then Some (float (replace "ms" "" (strip (List.last parts ""))))
    else None
  else None.

Definition latency_line_unix (line : string) : option (option Q) :=
  if (contains "avg" (lower line) || contains "rtt" (lower line))%bool then
    let parts := split "=" line in
    if at_least_two parts then
      let stats := split "/" (strip (List.last parts "")) in
      match stats with
      | _ :: avg :: _ => Some (float avg)
      | _ => None
      end
    else None
  else None.

Definition _parse_latency (output : string) (system : string) : option Q :=
  let lines := split newline output in
  let body := if String.eqb system "windows"
              then latency_line_windows else latency_line_unix in
  match first_return body lines with
  | Some r => r
  | None => None
  end.

(** Body of the loops of [_parse_packet_loss] for one line: the first
    white-space separated part holding a percent sign decides. *)
Definition loss_line (line : string) : option (option Q) :=
  if contains "loss" (lower line) then
    first_return
      (fun part => if contains "%" part
                   then Some (float (replace "," "" (replace "%" "" part)))
                   else None)
      (split_ws line)
  else None.

Definition _parse_packet_loss (output : string) (system : string) : Q :=
  match first_return loss_line (split newline output) with
  | Some (Some loss) => loss
  | Some None => 0%Q   (* ValueError: falls through to [return 0.0] *)
  | None => 0%Q
  end.

(** [str(n)] for the command line. *)
Definition str (n : Z) : string := pretty n.

Definition ping_cmd (ip : string) (count timeout : Z) : list string :=
  if String.eqb system "windows"
  then ["ping"; "-n"; str count; "-w"; str (timeout * 1000); ip]
  else ["ping"; "-c"; str count; "-W"; str timeout; ip].

(** [ping]: the returned triple and what the call did on the way. *)
Definition ping (ip : string) (count timeout : Z)
  : (option Q * Q * string) * list effect :=
  let cmd := ping_cmd ip count timeout in
  let deadline := (timeout * count + 5)%Z in
  match exec cmd deadline with
  | Output output =>
      let latency := _parse_latency output system in
      let packet_loss := _parse_packet_loss output system in
      (match latency with
       | Some _ => (latency, packet_loss, "success")
       | None =>
           if Qeq_bool packet_loss 100
           then (None, packet_loss, "timeout")
           else (latency, packet_loss, "partial")
       end, [Exec cmd deadline])
  | TimeoutError => ((None, 100%Q, "timeout"), [Exec cmd deadline])
  | Failed => ((None, 100%Q, "error"), [Exec cmd deadline; Print (PingError ip)])
  end.

(** [ping_target]: the result, the updated [last_results] and the
    effects of the probe. *)
Definition ping_target (name ip : string) (last_results : gmap string PingResult)
  : PingResult * gmap string PingResult * list effect :=
  let '((latency, loss, st), effs) := ping ip 3 2 in
  let result := {| target_name := name; target_ip := ip;
                   latency_ms := latency; packet_loss := loss;
                   status := st |} in
  (result, <[name := result]> last_results, effs).

(** *** NetworkMonitor *)

(** The guard of the loop that builds [tasks]. *)
Definition selected (t : target) : bool :=
  (default true (tgt_enabled t)
   && match tgt_type t with
      | Some ty => String.eqb ty "ping"
      | None => false
      end)%bool.

(** [asyncio.gather] returns the results in the order of its arguments,
    whatever the order in which the probes finish.  The cache writes
    and effects are threaded in that same order; with pairwise distinct
    target names the final cache does not depend on it. *)
Fixpoint gather (tasks : list target) (last_results : gmap string PingResult)
  : list PingResult * gmap string PingResult * list effect :=
  match tasks with
  | [] => ([], last_results, [])
  | t :: rest =>
      let '(r, lr1, e1) := ping_target (tgt_name t) (tgt_ip t) last_results in
      let '(rs, lr2, e2) := gather rest lr1 in
      (r :: rs, lr2, (e1 ++ e2)%list)
  end.

(** [ping_all_targets]; [cfg] is [self.config], which is the very
    dictionary the application mutates. *)
Definition ping_all_targets (cfg : config) (last_results : gmap string PingResult)
  : list PingResult * gmap string PingResult * list effect :=
  let targets := default [] (targets cfg) in
  let tasks := List.filter selected targets in
  gather tasks last_results.

End Prober.

(** [measure_all_bandwidth]: the enabled gateways, one after another; the
    [n]-th call of [measure] sees [os n]. *)
Fixpoint measure_each (os : nat -> os_view) (n : nat) (gws : list gateway)
    (self : BandwidthMonitor)
  : list BandwidthMeasurement * BandwidthMonitor * list effect :=
  match gws with
  | [] => ([], self, [])
  | g :: rest =>
      if default true (gw_enabled g) then
        let '(m, self1, e1) := measure (os n) (gw_name g) (gw_interface g) self in
        let '(ms, self2, e2) := measure_each os (S n) rest self1 in
        (m :: ms, self2, (e1 ++ e2)%list)
      else measure_each os n rest self
  end.

Definition measure_all_bandwidth (os : nat -> os_view) (cfg : config)
    (self : BandwidthMonitor) :=
  measure_each os 0 (default [] (gateways cfg)) self.

(** The state a [NetworkMonitor] owns besides [config]: the
    [last_results] of its [PingMonitor] and its [BandwidthMonitor]. *)
Record NetworkMonitor := {
  ping_monitor : gmap string PingResult;
  bandwidth_monitor : BandwidthMonitor
}.

End Monitor.

(** ** app.py *)

Module App.
Import PyStr Monitor.

(** *** Request bodies and responses *)

Record TargetCreate := {
  name : string;
  ip : string;
  enabled : bool
}.

Inductive response :=
| Created (new_target : target)   (* {"status": "created", "target": ...} *)
| Added.                          (* {"status": "added"} *)

(** *** The database tables the tasks write *)

(** The text of an alert: which template and the two numbers formatted
    into it. *)
Inductive alert_message :=
| HighLatencyDetected (latency threshold : Q)
| PacketLossDetected (loss threshold : Q).

Record alert := {
  alert_type : string;
  alert_target_name : string;
  message : alert_message;
  severity : string
}.

Record database := {
  ping_results : list PingResult;   (* rows of save_ping_result *)
  alerts_table : list alert         (* rows of save_alert *)
}.

Definition save_ping_result (r : PingResult) (db : database) : database :=
  {| ping_results := ping_results db ++ [r]; alerts_table := alerts_table db |}.

Definition save_alert (alert_type target_name : string) (msg : alert_message)
    (severity : string) (db : database) : database :=
  {| ping_results := ping_results db;
     alerts_table := alerts_table db ++
       [{| alert_type := alert_type; alert_target_name := target_name;
           message := msg; severity := severity |}] |}.

(** *** ConnectionManager *)

(** A websocket is known by its identity. *)
Definition WebSocket := positive.

(** The envelopes [broadcast] is called with. *)
Inductive envelope :=
| ping_update (data : list PingResult)
| bandwidth_update (data : list BandwidthMeasurement).

Section Broadcast.

(** [connection.send_json(message)]: delivers or raises an [Exception];
    the cancellation of the task is not modelled. *)
Variable send_json : WebSocket -> envelope -> res unit.

(** The [await] of a send lets other tasks run: a client connects or
    leaves, another broadcast prunes.  [meanwhile c s] is what they have
    made of the live set [s] by the time the send to [c] returns. *)
Variable meanwhile : WebSocket -> gset WebSocket -> gset WebSocket.

(** A set iterator raises when the size of its set has changed.  What it
    yields after a change that kept the size is not fixed by the language;
    the rest of the call is then this parameter of the live set, the set
    [disconnected] and the sends attempted so far. *)
Variable unspecified :
  gset WebSocket -> gset WebSocket -> list WebSocket
  -> res unit * gset WebSocket * list WebSocket.

Definition set_changed_size : exn :=
  RuntimeError "Set changed size during iteration".

(** The [for] loop of [broadcast] over the live set [active], followed by
    the removal of [disconnected]; [conns] are the connections the
    iterator has not yielded yet.  After the body for a connection the
    iterator is asked again, and it first compares the size of the set
    with the size it had.  The result is the outcome, the live set at the
    end and the sends attempted, oldest first. *)
Fixpoint send_all (msg : envelope) (active : gset WebSocket) (conns : list WebSocket)
    (disconnected : gset WebSocket) (attempted : list WebSocket)
  : res unit * gset WebSocket * list WebSocket :=
  match conns with
  | [] => (Ret tt, active ∖ disconnected, attempted)
  | connection :: rest =>
      let disconnected' :=
        match send_json connection msg with
        | Ret _ => disconnected
        | Raise _ => {[connection]} ∪ disconnected
        end in
      let attempted' := (attempted ++ [connection])%list in
      let live := meanwhile connection active in
      if decide (live = active) then send_all msg active rest disconnected' attempted'
      else if (size live =? size active)%nat
           then unspecified live disconnected' attempted'
           else (Raise set_changed_size, live, attempted')
  end.

(** [broadcast]: the outcome, the new [active_connections] and the sends
    attempted.  The loop runs over the live set, not over a copy. *)
Definition broadcast (msg : envelope) (active_connections : gset WebSocket)
  : res unit * gset WebSocket * list WebSocket :=
  if decide (active_connections = ∅) then (Ret tt, active_connections, [])
  else send_all msg active_connections (elements active_connections) ∅ [].

End Broadcast.

(** *** Application state

    [config] is the module-level dictionary.  [NetworkMonitor(config)]
    and every later [network_monitor.config = config] store a reference to
    that same dictionary, so the monitor always reads [config] itself and
    keeps no copy. *)
Record app := {
  app_config : config;
  config_file : option config;               (* what save_config wrote last *)
  network_monitor : option NetworkMonitor;
  db : database;
  manager : gset WebSocket;                  (* manager.active_connections *)
  outbox : list (envelope * list WebSocket); (* broadcasts and their sends *)
  trace : list effect                        (* subprocesses and prints *)
}.

Definition no_alerts_config : alerts_config :=
  {| alerts_enabled := None; ping_threshold_ms := None;
     packet_loss_threshold_percent := None |}.

(** The "Check for alerts" part of the loop body of [ping_task] for one
    result.  The message of an alert is built, with
    [alerts_config['...']], before [save_alert] is called. *)
Definition check_alerts (cfg : config) (result : PingResult) (d : database)
  : res unit * database :=
  let alerts_config := default no_alerts_config (alerts cfg) in
  if default false (alerts_enabled alerts_config) then
    let high_latency : res unit * database :=
      match latency_ms result with
      | Some latency =>
          if (Qnonzero latency
              && Qgtb latency (default 100%Q (ping_threshold_ms alerts_config)))%bool
          then match ping_threshold_ms alerts_config with
               | Some threshold =>
                   (Ret tt, save_alert "high_latency" (target_name result)
                              (HighLatencyDetected latency threshold) "warning" d)
               | None => (Raise (KeyError "ping_threshold_ms"), d)
               end
          else (Ret tt, d)
      | None => (Ret tt, d)
      end in
    match high_latency with
    | (Ret _, d1) =>
        if Qgtb (packet_loss result)
                (default 5%Q (packet_loss_threshold_percent alerts_config))
        then match packet_loss_threshold_percent alerts_config with
             | Some threshold =>
                 (Ret tt, save_alert "packet_loss" (target_name result)
                            (PacketLossDetected (packet_loss result) threshold)
                            (if Qgtb (packet_loss result) 50 then "critical" else "warning")
                            d1)
             | None => (Raise (KeyError "packet_loss_threshold_percent"), d1)
             end
        else (Ret tt, d1)
    | (Raise e, d1) => (Raise e, d1)
    end
  else (Ret tt, d).

(** The loop [for result in results] of [ping_task], with a database
    that takes every row. *)
Fixpoint process_results (cfg : config) (results : list PingResult) (d : database)
  : res unit * database :=
  match results with
  | [] => (Ret tt, d)
  | result :: rest =>
      match check_alerts cfg result (save_ping_result result d) with
      | (Ret _, d1) => process_results cfg rest d1
      | (Raise e, d1) => (Raise e, d1)
      end
  end.

(** The same loop with the database in the picture: [await
    save_ping_result(...)] and [await save_alert(...)] return or raise
    whatever the database layer raises.  [check_alerts] and
    [process_results] above are this loop when every save returns. *)
Section Storage.

Variable storing_ping : PingResult -> res unit.
Variable storing_alert : alert -> res unit.

Definition saving_alert (alert_type target_name : string) (msg : alert_message)
    (severity : string) (d : database) : res unit * database :=
  match storing_alert {| alert_type := alert_type; alert_target_name := target_name;
                         message := msg; severity := severity |} with
  | Ret _ => (Ret tt, save_alert alert_type target_name msg severity d)
  | Raise e => (Raise e, d)
  end.

Definition check_alerts_storing (cfg : config) (result : PingResult) (d : database)
  : res unit * database :=
  let alerts_config := default no_alerts_config (alerts cfg) in
  if default false (alerts_enabled alerts_config) then
    let high_latency : res unit * database :=
      match latency_ms result with
      | Some latency =>
          if (Qnonzero latency
              && Qgtb latency (default 100%Q (ping_threshold_ms alerts_config)))%bool
          then match ping_threshold_ms alerts_config with
               | Some threshold =>
                   saving_alert "high_latency" (target_name result)
                                (HighLatencyDetected latency threshold) "warning" d
               | None => (Raise (KeyError "ping_threshold_ms"), d)
               end
          else (Ret tt, d)
      | None => (Ret tt, d)
      end in
    match high_latency with
    | (Ret _, d1) =>
        if Qgtb (packet_loss result)
                (default 5%Q (packet_loss_threshold_percent alerts_config))
        then match packet_loss_threshold_percent alerts_config with
             | Some threshold =>
                 saving_alert "packet_loss" (target_name result)
                              (PacketLossDetected (packet_loss result) threshold)
                              (if Qgtb (packet_loss result) 50 then "critical" else "warning")
                              d1
             | None => (Raise (KeyError "packet_loss_threshold_percent"), d1)
             end
        else (Ret tt, d1)
    | (Raise e, d1) => (Raise e, d1)
    end
  else (Ret tt, d).

Fixpoint process_results_storing (cfg : config) (results : list PingResult)
    (d : database) : res unit * database :=
  match results with
  | [] => (Ret tt, d)
  | result :: rest =>
      match storing_ping result with
      | Raise e => (Raise e, d)
      | Ret _ =>
          match check_alerts_storing cfg result (save_ping_result result d) with
          | (Ret _, d1) => process_results_storing cfg rest d1
          | (Raise e, d1) => (Raise e, d1)
          end
      end
  end.

End Storage.

Section Server.

Variable float : string -> option Q.
Variable system : string.
Variable exec : list string -> Z -> communicate.
Variable send_json : WebSocket -> envelope -> res unit.
Variable meanwhile : WebSocket -> gset WebSocket -> gset WebSocket.
Variable unspecified :
  gset WebSocket -> gset WebSocket -> list WebSocket
  -> res unit * gset WebSocket * list WebSocket.
Variable storing_ping : PingResult -> res unit.
Variable storing_alert : alert -> res unit.

(** [str.lower] on target names: Python folds the letters of every
    script, so it is left open here. *)
Variable str_lower : string -> string.

(** [ping_task]: the probes, the loop over the results, the broadcast.
    An exception of a save, of an alert message or of the broadcast ends
    the task there and reaches its caller.  [manager a] is the set of
    connections as the broadcast finds it. *)
Definition ping_task (a : app) : res unit * app :=
  match network_monitor a with
  | None => (Ret tt, a)
  | Some nm =>
      let '(results, last_results, effs) :=
        ping_all_targets float system exec (app_config a) (ping_monitor nm) in
      let nm' := {| ping_monitor := last_results;
                    bandwidth_monitor := bandwidth_monitor nm |} in
      let '(r, db') :=
        process_results_storing storing_ping storing_alert
                                (app_config a) results (db a) in
      match r with
      | Raise e =>
          (Raise e,
           {| app_config := app_config a; config_file := config_file a;
              network_monitor := Some nm'; db := db';
              manager := manager a; outbox := outbox a;
              trace := trace a ++ effs |})
      | Ret _ =>
          let '(sent, active, attempted) :=
            broadcast send_json meanwhile unspecified
                      (ping_update results) (manager a) in
          (sent,
           {| app_config := app_config a; config_file := config_file a;
              network_monitor := Some nm'; db := db';
              manager := active;
              outbox := (outbox a ++ [(ping_update results, attempted)])%list;
              trace := trace a ++ effs |})
      end
  end.

(** The loop of the first [add_target] over the existing targets. *)
Definition duplicate_of (target : TargetCreate) (t : Monitor.target) : option exn :=
  if String.eqb (str_lower (tgt_name t)) (str_lower (name target))
  then Some (HTTPException 400
               ("Target with name '" ++ name target ++ "' already exists"))
  else if String.eqb (tgt_ip t) (ip target)
  then Some (HTTPException 400
               ("Target with IP '" ++ ip target ++ "' already exists"))
  else None.

(** [save_config] after the list under ['targets'] became [ts]. *)
Definition with_targets (ts : list Monitor.target) (a : app) : app :=
  let cfg := {| targets := Some ts; gateways := gateways (app_config a);
                alerts := alerts (app_config a) |} in
  {| app_config := cfg; config_file := Some cfg;
     network_monitor := network_monitor a; db := db a;
     manager := manager a; outbox := outbox a; trace := trace a |}.

(** The first [add_target] (the one that validates). *)
Definition add_target (target : TargetCreate) (a : app) : res response * app :=
  let existing_targets := default [] (targets (app_config a)) in
  match first_return (duplicate_of target) existing_targets with
  | Some e => (Raise e, a)
  | None =>
      let new_target := {| tgt_name := name target; tgt_ip := ip target;
                           tgt_type := Some "ping";
                           tgt_enabled := Some (enabled target) |} in
      match targets (app_config a) with
      | None => (Raise (KeyError "targets"), a)
      | Some ts =>
          match ping_task (with_targets (ts ++ [new_target]) a) with
          | (Ret _, a') => (Ret (Created new_target), a')
          | (Raise e, a') => (Raise e, a')
          end
      end
  end.

(** The second definition of [add_target], registered later for the
    same method and path: [target.dict()] has no ['type'] key. *)
Definition add_target_again (target : TargetCreate) (a : app) : res response * app :=
  match targets (app_config a) with
  | None => (Raise (KeyError "targets"), a)
  | Some ts =>
      let t := {| tgt_name := name target; tgt_ip := ip target;
                  tgt_type := None; tgt_enabled := Some (enabled target) |} in
      (Ret Added, with_targets (ts ++ [t]) a)
  end.

(** *** Routing

    The path operations in the order in which the decorators register
    them.  The framework serves a request with the first route whose
    path and method both match.  The static mount, the websocket route
    and the framework's own documentation routes serve none of the
    requests considered here and are left out. *)
Inductive endpoint :=
| ep_root | ep_get_status | ep_get_config | ep_get_ping_history_api
| ep_get_bandwidth_history_api | ep_get_alerts_api | ep_acknowledge_alert_api
| ep_get_statistics_api | ep_get_ping_analytics_api | ep_get_ping_logs_api
| ep_get_interfaces | ep_get_targets
| ep_add_target | ep_delete_target | ep_update_target
| ep_trigger_ping | ep_trigger_bandwidth
| ep_add_target_again | ep_delete_target_again | ep_update_target_again.

Definition routes : list (string * string * endpoint) :=
  [ ("GET", "/", ep_root);
    ("GET", "/api/status", ep_get_status);
    ("GET", "/api/config", ep_get_config);
    ("GET", "/api/ping/history", ep_get_ping_history_api);
    ("GET", "/api/bandwidth/history", ep_get_bandwidth_history_api);
    ("GET", "/api/alerts", ep_get_alerts_api);
    ("POST", "/api/alerts/{alert_id}/acknowledge", ep_acknowledge_alert_api);
    ("GET", "/api/statistics", ep_get_statistics_api);
    ("GET", "/api/analytics/ping", ep_get_ping_analytics_api);
    ("GET", "/api/logs/ping", ep_get_ping_logs_api);
    ("GET", "/api/interfaces", ep_get_interfaces);
    ("GET", "/api/targets", ep_get_targets);
    ("POST", "/api/targets", ep_add_target);
    ("DELETE", "/api/targets/{target_name}", ep_delete_target);
    ("PATCH", "/api/targets/{target_name}", ep_update_target);
    ("POST", "/api/trigger/ping", ep_trigger_ping);
    ("POST", "/api/trigger/bandwidth", ep_trigger_bandwidth);
    ("POST", "/api/targets", ep_add_target_again);
    ("DELETE", "/api/targets/{target_name}", ep_delete_target_again);
    ("PUT", "/api/targets/{target_name}", ep_update_target_again) ].

(** A path parameter matches one non-empty segment. *)
Definition segment_matches (pattern segment : string) : bool :=
  if String.prefix "{" pattern
  then negb (String.eqb segment "")
  else String.eqb pattern segment.

Fixpoint segments_match (patterns segments : list string) : bool :=
  match patterns, segments with
  | [], [] => true
  | p :: ps, x :: xs => (segment_matches p x && segments_match ps xs)%bool
  | _, _ => false
  end.

Definition route_matches (method path : string) (r : string * string * endpoint) : bool :=
  let '(m, pattern, _) := r in
  (String.eqb m method && segments_match (split "/" pattern) (split "/" path))%bool.

Definition resolve (method path : string) : option endpoint :=
  first_return (fun r => if route_matches method path r then Some (snd r) else None)
               routes.

(** A [POST /api/targets] request, served by whichever handler the
    router selects. *)
Definition post_api_targets (target : TargetCreate) (a : app) : res response * app :=
  match resolve "POST" "/api/targets" with
  | Some ep_add_target => add_target target a
  | Some ep_add_target_again => add_target_again target a
  | _ => (Raise (HTTPException 404 "Not Found"), a)
  end.

End Server.

End App.

(** ** A stand-in for [float] and sample tool outputs, for running the model *)

Module Demo.
Import PyStr Monitor App.

Definition digit_of (c : ascii) : option Z :=
  let n := nat_of_ascii c in
  if ((48 <=? n)%nat && (n <=? 57)%nat)%bool then Some (Z.of_nat (n - 48)) else None.

(** Reads [digits] or [digits.digits]; [num] over [den] is the value read
    so far, [frac] tells whether the point was passed. *)
Fixpoint decimal_from (num : Z) (den : positive) (frac seen : bool) (s : string)
  : option Q :=
  match s with
  | EmptyString => if seen then Some (Qmake num den) else None
  | String c r =>
      match digit_of c with
      | Some d =>
          decimal_from (10 * num + d) (if frac then 10 * den else den)%positive
                       frac true r
      | None =>
          if (Ascii.eqb c "." && negb frac)%bool
          then decimal_from num den true seen r
          else None
      end
  end.

(** Accepts what the ping tools print: unsigned decimals, with
    surrounding white space. *)
Definition float (s : string) : option Q :=
  Qred <$> decimal_from 0 1 false false (strip s).

Definition nl : string := String newline EmptyString.

Definition linux_ok : string :=
  "3 packets transmitted, 3 received, 0% packet loss, time 2003ms" ++ nl ++
  "rtt min/avg/max/mdev = 10.123/11.5/12.789/0.123 ms" ++ nl.

Definition linux_lost : string :=
  "3 packets transmitted, 0 received, 100% packet loss, time 2040ms" ++ nl.

Definition windows_ok : string :=
  "    Packets: Sent = 3, Received = 3, Lost = 0 (0% loss)," ++ nl ++
  "    Minimum = 9ms, Maximum = 14ms, Average = 12ms" ++ nl.

(** Three targets as in the first scenario: two answer, the third runs
    into the deadline. *)
Definition exec3 (cmd : list string) (deadline : Z) : communicate :=
  match List.last cmd "" with
  | "10.0.0.1" => Output linux_ok
  | "10.0.0.2" => Output linux_ok
  | _ => TimeoutError
  end.

Definition mk_target (n i : string) (ty : option string) (en : option bool) : target :=
  {| tgt_name := n; tgt_ip := i; tgt_type := ty; tgt_enabled := en |}.

Definition cfg3 : config :=
  {| targets := Some [ mk_target "A" "10.0.0.1" (Some "ping") (Some true);
                       mk_target "B" "10.0.0.2" (Some "ping") None;
                       mk_target "C" "10.0.0.3" (Some "ping") (Some true) ];
     gateways := None; alerts := None |}.

Definition no_rows : database := {| ping_results := []; alerts_table := [] |}.

(** A probe result of target [A]. *)
Definition probe (latency : option Q) (loss : Q) (st : string) : PingResult :=
  {| target_name := "A"; target_ip := "10.0.0.1";
     latency_ms := latency; packet_loss := loss; status := st |}.

(** [config] with only an ['alerts'] section. *)
Definition alerts_only (en : option bool) (latency_thr loss_thr : option Q) : config :=
  {| targets := None; gateways := None;
     alerts := Some {| alerts_enabled := en; ping_threshold_ms := latency_thr;
                       packet_loss_threshold_percent := loss_thr |} |}.

(** A transport on which the connections 2 and 5 are broken. *)
Definition send_json (c : WebSocket) (msg : envelope) : res unit :=
  if decide (c = 2%positive \/ c = 5%positive) then Raise OtherError else Ret tt.

(** Nothing else happens while a send is awaited. *)
Definition quiet (c : WebSocket) (active : gset WebSocket) : gset WebSocket := active.

(** The client [websocket] connects while the send to [busy] is
    awaited. *)
Definition joins_during (busy websocket c : WebSocket) (active : gset WebSocket)
  : gset WebSocket :=
  if decide (c = busy) then {[websocket]} ∪ active else active.

(** One way an iterator may go on over a set that was changed at equal
    size: it yields nothing more. *)
Definition iteration_ends (live disconnected : gset WebSocket)
    (attempted : list WebSocket) : res unit * gset WebSocket * list WebSocket :=
  (Ret tt, live ∖ disconnected, attempted).

(** A database that takes every row. *)
Definition stores {A} (x : A) : res unit := Ret tt.

(** A database that is locked. *)
Definition locked {A} (x : A) : res unit := Raise OtherError.

Definition idle_app (cfg : config) : app :=
  {| app_config := cfg; config_file := None;
     network_monitor :=
       Some {| ping_monitor := ∅;
               bandwidth_monitor := {| last_measurements := ∅; current_rates := ∅ |} |};
     db := no_rows; manager := ∅; outbox := []; trace := [] |}.

End Demo.

(** ** monitor.py, the remaining functions *)

Module Reporting.
Import PyStr Monitor.

(** *** format_bytes *)

Section Format.

(** The format specification [:.2f] applied to a float. *)
Variable fmt2 : Q -> string.

Definition units : list string := ["B"; "KB"; "MB"; "GB"; "TB"].

(** The loop of [format_bytes]: the number that is printed and its unit.
    Running off the end of the list is the final [return] with ["PB"]. *)
Fixpoint scale (units : list string) (bytes_value : Q) : Q * string :=
  match units with
  | [] => (bytes_value, "PB")
  | unit :: rest =>
      if Qgtb 1024 (Qabs bytes_value) then (bytes_value, unit)
      else scale rest (bytes_value / 1024)%Q
  end.

Definition format_bytes (bytes_value : Q) : string :=
  let '(x, unit) := scale units bytes_value in
  fmt2 x ++ " " ++ unit.

Definition format_bytes_rate (bytes_per_sec : Q) : string :=
  format_bytes bytes_per_sec ++ "/s".

End Format.

(** *** get_current_status *)

(** The dictionary [get_current_status] returns, without the time
    stamps. *)
Record status_report := {
  st_ping_results : gmap string (string * option Q * Q * string);
    (* name -> target_ip, latency_ms, packet_loss, status *)
  st_bandwidth : gmap string (string * Q * Q);
    (* name -> interface, bytes_sent_rate, bytes_recv_rate *)
  st_available_interfaces : list string
}.

(** [psutil] is read once, for ["available_interfaces"], outside any
    [try]. *)
Definition get_current_status (io : res (gmap string snetio)) (self : NetworkMonitor)
  : res status_report :=
  let ping_results :=
    (fun result => (target_ip result, latency_ms result,
                    packet_loss result, status result))
      <$> ping_monitor self in
  let bandwidth :=
    (fun measurement => (interface measurement, bytes_sent_rate measurement,
                         bytes_recv_rate measurement))
      <$> current_rates (bandwidth_monitor self) in
  res_bind (get_available_interfaces io) (fun available =>
  Ret {| st_ping_results := ping_results;
         st_bandwidth := bandwidth;
         st_available_interfaces := available |}).

End Reporting.

(** ** app.py, the remaining handlers *)

Module Admin.
Import PyStr Monitor App.

(** *** ConnectionManager.connect and disconnect *)

(** [connect]: [accept] is what [await websocket.accept()] does; when it
    raises, the socket is not added. *)
Definition connect (accept : res unit) (websocket : WebSocket)
    (active_connections : gset WebSocket) : res unit * gset WebSocket :=
  match accept with
  | Ret _ => (Ret tt, {[websocket]} ∪ active_connections)
  | Raise e => (Raise e, active_connections)
  end.

(** [disconnect]: [set.discard]. *)
Definition disconnect (websocket : WebSocket) (active_connections : gset WebSocket)
  : gset WebSocket :=
  active_connections ∖ {[websocket]}.

(** *** bandwidth_task *)

Section BandwidthTask.

Variable send_json : WebSocket -> envelope -> res unit.
Variable meanwhile : WebSocket -> gset WebSocket -> gset WebSocket.
Variable unspecified :
  gset WebSocket -> gset WebSocket -> list WebSocket
  -> res unit * gset WebSocket * list WebSocket.

(** [await save_bandwidth_measurement(...)]: returns or raises. *)
Variable storing_bandwidth : BandwidthMeasurement -> res unit.

(** The loop [for measurement in measurements]: a save that raises ends
    it, the rows saved before stay. *)
Fixpoint save_measurements (measurements rows : list BandwidthMeasurement)
  : res unit * list BandwidthMeasurement :=
  match measurements with
  | [] => (Ret tt, rows)
  | measurement :: rest =>
      match storing_bandwidth measurement with
      | Ret _ => save_measurements rest (rows ++ [measurement])%list
      | Raise e => (Raise e, rows)
      end
  end.

(** [bandwidth_task]; [rows] is the table [bandwidth_measurements], to
    which [save_bandwidth_measurement] appends, and the [n]-th call of
    [measure] sees [os n].  The envelope stands for the dictionary that is
    sent: its formatted rates are [format_bytes_rate] of the samples'
    rates. *)
Definition bandwidth_task (os : nat -> os_view) (a : app)
    (rows : list BandwidthMeasurement)
  : res unit * app * list BandwidthMeasurement :=
  match network_monitor a with
  | None => (Ret tt, a, rows)
  | Some nm =>
      let '(measurements, bm, effs) :=
        measure_all_bandwidth os (app_config a) (bandwidth_monitor nm) in
      let nm' := {| ping_monitor := ping_monitor nm; bandwidth_monitor := bm |} in
      let '(saved, rows') := save_measurements measurements rows in
      match saved with
      | Raise e =>
          (Raise e,
           {| app_config := app_config a; config_file := config_file a;
              network_monitor := Some nm'; db := db a;
              manager := manager a; outbox := outbox a;
              trace := (trace a ++ effs)%list |},
           rows')
      | Ret _ =>
          let '(sent, active, attempted) :=
            broadcast send_json meanwhile unspecified
                      (bandwidth_update measurements) (manager a) in
          (sent,
           {| app_config := app_config a; config_file := config_file a;
              network_monitor := Some nm'; db := db a;
              manager := active;
              outbox := (outbox a ++ [(bandwidth_update measurements, attempted)])%list;
              trace := (trace a ++ effs)%list |},
           rows')
      end
  end.

End BandwidthTask.

(** *** Target administration *)


Inductive admin_response :=
| Deleted (target_name : string)   (* {"status": "deleted", "target_name": ...} *)
| Updated (t : target)             (* {"status": "updated", "target": ...} *)
| DeletedAgain                     (* {"status": "deleted"} *)
| UpdatedAgain.                    (* {"status": "updated"} *)

(** [config['targets'] = ts], in memory only. *)
Definition assign_targets (ts : list target) (a : app) : app :=
  {| app_config := {| targets := Some ts; gateways := gateways (app_config a);
                      alerts := alerts (app_config a) |};
     config_file := config_file a;
     network_monitor := network_monitor a; db := db a;
     manager := manager a; outbox := outbox a; trace := trace a |}.

Definition save_config (a : app) : app :=
  {| app_config := app_config a; config_file := Some (app_config a);
     network_monitor := network_monitor a; db := db a;
     manager := manager a; outbox := outbox a; trace := trace a |}.

Definition not_found (target_name : string) : exn :=
  HTTPException 404 ("Target '" ++ target_name ++ "' not found").

Section Names.

(** [str.lower] on target names, as in [App]. *)
Variable str_lower : string -> string.

(** The first [delete_target].  The filtered list is assigned before the
    lengths are compared. *)
Definition delete_target (target_name : string) (a : app) : res admin_response * app :=
  let targets := default [] (targets (app_config a)) in
  let original_length := length targets in
  let kept := List.filter
                (fun t => negb (String.eqb (str_lower (tgt_name t)) (str_lower target_name)))
                targets in
  let a1 := assign_targets kept a in
  if (length kept =? original_length)%nat
  then (Raise (not_found target_name), a1)
  else (Ret (Deleted target_name), save_config a1).




End Names.

(** The second [delete_target]: exact names, no 404. *)
Definition delete_target_again (target_name : string) (a : app)
  : res admin_response * app :=
  match targets (app_config a) with
  | None => (Raise (KeyError "targets"), a)
  | Some ts =>
      let kept := List.filter (fun t => negb (String.eqb (tgt_name t) target_name)) ts in
      (Ret DeletedAgain, save_config (assign_targets kept a))
  end.


End Admin.

(** ** database.py, the computations done in Python *)

Module Database.

(** *** The worst hour of get_ping_analytics *)

(** One row of the hourly breakdown; [SUM] and [AVG] may be [NULL]. *)
Record hour_row := {
  hour : string;                (* strftime('%H', timestamp) *)
  total_pings : Z;
  timeouts : option Z;
  avg_latency : option Q;
  max_latency : option Q
}.

Record worst := {
  worst_hour_of : string;       (* 'hour' *)
  reason : string;              (* 'timeouts' or 'high_latency' *)
  value : Q                     (* the time-out count or the average latency *)
}.

(** [max(iterable, key=...)] on a non-empty list [best :: l]: a later
    element replaces the current one only when its key is strictly
    greater. *)
Fixpoint max_from {A K} (gt : K -> K -> bool) (key : A -> K) (best : A) (l : list A) : A :=
  match l with
  | [] => best
  | x :: r => if gt (key x) (key best) then max_from gt key x r
              else max_from gt key best r
  end.

(** [x['timeouts'] or 0] and [x['avg_latency'] or 0]. *)
Definition timeouts_key (x : hour_row) : Z := default 0%Z (timeouts x).
Definition latency_key (x : hour_row) : Q := default 0%Q (avg_latency x).

Definition worst_hour (hourly_breakdown : list hour_row) : option worst :=
  match hourly_breakdown with
  | [] => None
  | first :: others =>
      let worst_by_timeouts := max_from Z.gtb timeouts_key first others in
      let by_latency :=
        let worst_by_latency := max_from Qgtb latency_key first others in
        match avg_latency worst_by_latency with
        | Some l => if Qnonzero l
                    then Some {| worst_hour_of := hour worst_by_latency;
                                 reason := "high_latency"; value := l |}
                    else None
        | None => None
        end in
      match timeouts worst_by_timeouts with
      | Some n =>
          if (negb (n =? 0)%Z && (n >? 0)%Z)%bool
          then Some {| worst_hour_of := hour worst_by_timeouts;
                       reason := "timeouts"; value := inject_Z n |}
          else by_latency
      | None => by_latency
      end
  end.

(** *** get_ping_logs_paginated *)

Inductive sql_param :=
| PText (s : string)
| PInt (n : Z).

(** A filter applies when it is given and not the empty string. *)
Definition given (o : option string) : bool :=
  match o with
  | Some s => negb (String.eqb s "")
  | None => false
  end.

(** [" AND ".join(conditions)]. *)
Fixpoint join_and (conditions : list string) : string :=
  match conditions with
  | [] => ""
  | [c] => c
  | c :: rest => c ++ " AND " ++ join_and rest
  end.

(** The [WHERE] clause and the parameters bound to it. *)
Definition where_clause (target_name status_filter : option string)
  : string * list sql_param :=
  let '(conditions, params) :=
    match given target_name, target_name with
    | true, Some t => (["target_name = ?"], [PText t])
    | _, _ => ([], [])
    end in
  let '(conditions, params) :=
    match given status_filter, status_filter with
    | true, Some s => ((conditions ++ ["status = ?"])%list, (params ++ [PText s])%list)
    | _, _ => (conditions, params)
    end in
  (match conditions with
   | [] => ""
   | _ => "WHERE " ++ join_and conditions
   end, params).

Record page (Row : Type) := {
  logs : list Row;
  total : Z;
  page_number : Z;              (* 'page' *)
  per_page_of : Z;              (* 'per_page' *)
  total_pages : Z
}.
Arguments logs {Row}.
Arguments total {Row}.
Arguments page_number {Row}.
Arguments per_page_of {Row}.
Arguments total_pages {Row}.

(** [a // b]. *)
Definition floordiv (a b : Z) : res Z :=
  if (b =? 0)%Z then Raise ZeroDivisionError else Ret (a / b)%Z.

Section Paginated.

Variable Row : Type.

(** The two statements run against [ping_results], as functions of the
    [WHERE] clause and of the bound parameters: the [COUNT] and the
    [SELECT ... ORDER BY timestamp DESC LIMIT ? OFFSET ?]. *)
Variable count_rows : string -> list sql_param -> Z.
Variable select_rows : string -> list sql_param -> list Row.

Definition get_ping_logs_paginated (target_name : option string) (page per_page : Z)
    (status_filter : option string) : res (Database.page Row) :=
  let '(clause, params) := where_clause target_name status_filter in
  let total := count_rows clause params in
  let offset := ((page - 1) * per_page)%Z in
  let logs := select_rows clause (params ++ [PInt per_page; PInt offset])%list in
  res_bind (floordiv (total + per_page - 1) per_page) (fun total_pages =>
  Ret {| logs := logs; total := total; page_number := page;
         per_page_of := per_page; total_pages := total_pages |}).

End Paginated.

End Database.

(** ** More sample inputs *)

Module Samples.
Import PyStr Monitor App Admin Database.

(** Alerts are enabled, no threshold is configured; the one target does
    not answer under [Demo.exec3]. *)
Definition cfg_alerts_without_thresholds : config :=
  {| targets := Some [Demo.mk_target "C" "10.0.0.3" (Some "ping") (Some true)];
     gateways := None;
     alerts := Some {| alerts_enabled := Some true; ping_threshold_ms := None;
                       packet_loss_threshold_percent := None |} |}.

Definition row (h : string) (n : Z) (t : option Z) (l : option Q) : hour_row :=
  {| hour := h; total_pings := n; timeouts := t; avg_latency := l; max_latency := l |}.

(** Hours 09 and 17 both saw three time-outs. *)
Definition breakdown_with_timeouts : list hour_row :=
  [ row "08" 120 (Some 1%Z) (Some 20%Q);
    row "09" 120 (Some 3%Z) (Some 35%Q);
    row "17" 120 (Some 3%Z) (Some 80%Q) ].

(** No time-out at all; hour 17 is the slowest. *)
Definition breakdown_without_timeouts : list hour_row :=
  [ row "08" 120 (Some 0%Z) (Some 20%Q);
    row "09" 120 (Some 0%Z) (Some 35%Q);
    row "17" 120 (Some 0%Z) (Some 80%Q) ].

(** What the Windows tool prints when nothing comes back. *)
Definition windows_all_lost : string :=
  "Pinging 10.0.0.3 with 32 bytes of data:" ++ Demo.nl ++
  "Request timed out." ++ Demo.nl ++
  "Request timed out." ++ Demo.nl ++
  "Request timed out." ++ Demo.nl ++
  "Ping statistics for 10.0.0.3:" ++ Demo.nl ++
  "    Packets: Sent = 3, Received = 0, Lost = 3 (100% loss)," ++ Demo.nl.

(** One gateway [wan] on [eth0], and counters that stand still. *)
Definition cfg_one_gateway : config :=
  {| targets := None;
     gateways := Some [{| gw_name := "wan"; gw_interface := "eth0";
                          gw_enabled := None |}];
     alerts := None |}.

Definition steady_counters (n : nat) : os_view :=
  {| net_io_counters :=
       Ret {[ "eth0" := {| io_bytes_sent := 1000; io_bytes_recv := 2000 |} ]};
     net_io_counters_again := Ret ∅; time_time := 100 |}.


End Samples.

Import PyStr Monitor App.

(** ** Vocabulary of the statements *)

(** The four values of [status]. *)
Definition known_status (s : string) : Prop :=
  s = "success" \/ s = "partial" \/ s = "timeout" \/ s = "error".

(** A target counts as enabled unless its ['enabled'] key says otherwise. *)
Definition is_enabled (t : Monitor.target) : bool :=
  default true (Monitor.tgt_enabled t).

(** The alerts one result yields when both thresholds are in the
    configuration. *)
Definition expected_alerts (latency_thr loss_thr : Q) (result : PingResult) : list alert :=
  (match latency_ms result with
   | Some latency =>
       if (Qnonzero latency && Qgtb latency latency_thr)%bool
       then [{| alert_type := "high_latency"; alert_target_name := target_name result;
                message := HighLatencyDetected latency latency_thr;
                severity := "warning" |}]
       else []
   | None => []
   end)
  ++ (if Qgtb (packet_loss result) loss_thr
      then [{| alert_type := "packet_loss"; alert_target_name := target_name result;
               message := PacketLossDetected (packet_loss result) loss_thr;
               severity := if Qgtb (packet_loss result) 50 then "critical" else "warning" |}]
      else []).

(** The request repeats the name of [t], up to what [str_lower] folds, or
    its address. *)
Definition duplicates (str_lower : string -> string)
    (target : TargetCreate) (t : Monitor.target) : Prop :=
  str_lower (tgt_name t) = str_lower (name target) \/ tgt_ip t = ip target.

(** The dictionary the validating handler appends. *)
Definition new_target_of (target : TargetCreate) : Monitor.target :=
  {| tgt_name := name target; tgt_ip := ip target;
     tgt_type := Some "ping"; tgt_enabled := Some (enabled target) |}.

(** The command lines of the subprocesses among some effects. *)
Fixpoint exec_cmds (effs : list effect) : list (list string) :=
  match effs with
  | [] => []
  | Exec cmd _ :: rest => cmd :: exec_cmds rest
  | Print _ :: rest => exec_cmds rest
  end.

(** A gateway counts as enabled unless its ['enabled'] key says otherwise. *)
Definition gateway_enabled (g : gateway) : bool := default true (gw_enabled g).

(** Both rates of a measurement are non-negative. *)
Definition rates_nonneg (m : BandwidthMeasurement) : Prop :=
  (0 <= bytes_sent_rate m)%Q /\ (0 <= bytes_recv_rate m)%Q.


(** No other task touches the set of connections while a send is
    awaited. *)
Definition undisturbed (meanwhile : WebSocket -> gset WebSocket -> gset WebSocket) : Prop :=
  forall connection active, meanwhile connection active = active.

(** A save that returns for every row. *)
Definition always_stores {A} (storing : A -> res unit) : Prop :=
  forall x, storing x = Ret tt.

(** Every alert message [ping_task] may have to build can be built: the
    alerts are off, or both thresholds are in the configuration. *)
Definition thresholds_configured (cfg : config) : bool :=
  let alerts_config := default no_alerts_config (alerts cfg) in
  negb (default false (alerts_enabled alerts_config))
  || (match ping_threshold_ms alerts_config with Some _ => true | None => false end
      && match packet_loss_threshold_percent alerts_config with
         | Some _ => true
         | None => false
         end).

(** How often the character [c] occurs in [s]. *)
Fixpoint occurrences (c : ascii) (s : string) : nat :=
  match s with
  | EmptyString => 0
  | String d r => (if Ascii.eqb d c then 1 else 0) + occurrences c r
  end.

(** The number of bytes in one unit of rank [k]: B, KB, MB, ... *)
Fixpoint unit_factor (k : nat) : Q :=
  match k with
  | O => 1
  | S k' => 1024 * unit_factor k'
  end.

(** The summary line of the Windows tool: some text, the loss in percent
    after an opening parenthesis, a space and the rest of the line, as in
    [Packets: Sent = 3, Received = 0, Lost = 3 (100% loss),]. *)
Definition windows_statistics (text percent rest : string) : string :=
  text +:+ " (" +:+ percent +:+ "% " +:+ rest.

(** * Properties *)

Local Open Scope list_scope.

(** ** Arithmetic helpers *)

Lemma Qgtb_true (x y : Q) : Qgtb x y = true <-> (y < x)%Q.
Proof.
  unfold Qgtb. rewrite negb_true_iff. split.
  - intros H. apply Qnot_le_lt. intros Hle.
    apply Qle_bool_iff in Hle. congruence.
  - intros H. destruct (Qle_bool x y) eqn:E; [|reflexivity].
    apply Qle_bool_iff in E. exfalso. exact (Qlt_not_le _ _ H E).
Qed.

Lemma Qgtb_false (x y : Q) : Qgtb x y = false <-> (x <= y)%Q.
Proof.
  unfold Qgtb. rewrite negb_false_iff. apply Qle_bool_iff.
Qed.

Lemma max0_nonneg (x : Q) : (0 <= max0 x)%Q.
Proof.
  unfold max0. destruct (Qgtb x 0) eqn:E.
  - apply Qlt_le_weak. now apply Qgtb_true.
  - apply Qle_refl.
Qed.

Lemma max0_of_nonneg (x : Q) : (0 <= x)%Q -> (max0 x == x)%Q.
Proof.
  intros Hx. unfold max0. destruct (Qgtb x 0) eqn:E.
  - reflexivity.
  - apply Qgtb_false in E. now apply Qle_antisym.
Qed.

(** A positive divisor never makes [truediv] raise. *)
Lemma truediv_pos (a : Z) (b : Q) :
  Qgtb b 0 = true -> truediv a b = Ret (inject_Z a / b)%Q.
Proof.
  intros Hb. apply Qgtb_true in Hb. unfold truediv.
  destruct (Qeq_bool b 0) eqn:E; [|reflexivity].
  apply Qeq_bool_iff in E. rewrite E in Hb. now apply Qlt_irrefl in Hb.
Qed.

Lemma Qdiv_nonneg (a : Z) (b : Q) : (0 <= a)%Z -> (0 < b)%Q -> (0 <= inject_Z a / b)%Q.
Proof.
  intros Ha Hb. apply Qle_shift_div_l; [exact Hb|].
  rewrite Qmult_0_l. unfold Qle. simpl. lia.
Qed.

(** ** The prober *)

Section ProberFacts.

Variable float : string -> option Q.
Variable system : string.
Variable exec : list string -> Z -> communicate.

Lemma ping_cases (ip : string) (count timeout : Z) :
  let '(latency, _, st) := fst (ping float system exec ip count timeout) in
  (is_Some latency <-> st = "success") /\ known_status st.
Proof.
  unfold ping, known_status.
  destruct (exec _ _) as [output| |]; simpl.
  - destruct (_parse_latency float output system) as [l|]; simpl.
    + split; [split; eauto | auto].
    + destruct (Qeq_bool _ _); simpl;
        (split; [split; [intros [? ?]; discriminate | discriminate] | auto]).
  - split; [split; [intros [? ?]; discriminate | discriminate] | auto].
  - split; [split; [intros [? ?]; discriminate | discriminate] | auto].
Qed.

Lemma ping_target_fields (name ip : string) (lr : gmap string PingResult) :
  let r := (ping_target float system exec name ip lr).1.1 in
  target_name r = name /\ target_ip r = ip
  /\ (is_Some (latency_ms r) <-> status r = "success")
  /\ known_status (status r).
Proof.
  unfold ping_target. pose proof (ping_cases ip 3 2) as H.
  destruct (ping float system exec ip 3 2) as [[[latency loss] st] effs].
  simpl in *. tauto.
Qed.

(** The result of [ping_target] does not depend on the cache it
    updates. *)
Lemma ping_target_result_cache (name ip : string) (lr lr' : gmap string PingResult) :
  (ping_target float system exec name ip lr).1.1
  = (ping_target float system exec name ip lr').1.1.
Proof.
  unfold ping_target.
  destruct (ping float system exec ip 3 2) as [[[latency loss] st] effs].
  reflexivity.
Qed.

Lemma gather_results (tasks : list target) (lr : gmap string PingResult) :
  (gather float system exec tasks lr).1.1
  = map (fun t => (ping_target float system exec (tgt_name t) (tgt_ip t) ∅).1.1) tasks.
Proof.
  revert lr. induction tasks as [|t rest IH]; intros lr; simpl; [reflexivity|].
  pose proof (ping_target_result_cache (tgt_name t) (tgt_ip t) lr ∅) as Hr.
  destruct (ping_target float system exec (tgt_name t) (tgt_ip t) lr)
    as [[r lr1] e1].
  specialize (IH lr1).
  destruct (gather float system exec rest lr1) as [[rs lr2] e2].
  simpl in *. now rewrite Hr, IH.
Qed.

End ProberFacts.

(** C1.  Every triple returned by [ping], whatever the subprocess did
    (output parsed, deadline expired, any other failure), and every
    [PingResult] built from it by [ping_target], carries a latency exactly
    when its status is ['success']. *)
Theorem latency_present_iff_success
    (float : string -> option Q) (system : string)
    (exec : list string -> Z -> communicate)
    (name ip : string) (count timeout : Z) (lr : gmap string PingResult) :
  (let '(latency, _, st) := fst (ping float system exec ip count timeout) in
   is_Some latency <-> st = "success")
  /\ (let r := (ping_target float system exec name ip lr).1.1 in
      is_Some (latency_ms r) <-> status r = "success").
Proof.
  split.
  - pose proof (ping_cases float system exec ip count timeout) as H.
    destruct (fst (ping float system exec ip count timeout)) as [[latency loss] st].
    tauto.
  - apply (ping_target_fields float system exec name ip lr).
Qed.

(** ** The ping cycle *)

(** C2, as stated, fails: an enabled target whose dictionary has no
    ['type'] key (the shape [TargetCreate.dict()] produces) is enabled and
    yet gets no result. *)
Lemma ping_cycle_skips_enabled_untyped_target :
  let cfg := {| targets := Some [Demo.mk_target "A" "10.0.0.1" None (Some true)];
                gateways := None; alerts := None |} in
  List.filter is_enabled (default [] (targets cfg))
    = [Demo.mk_target "A" "10.0.0.1" None (Some true)]
  /\ (ping_all_targets Demo.float "linux" Demo.exec3 cfg ∅).1.1 = []
  /\ length (ping_all_targets Demo.float "linux" Demo.exec3 cfg ∅).1.1
     <> length (List.filter is_enabled (default [] (targets cfg))).
Proof.
  intros cfg. split; [reflexivity|]. split; [reflexivity|].
  vm_compute. discriminate.
Qed.

(** C2, amended.  One ping cycle returns exactly one result per target
    that is enabled and whose type is ['ping'], in the order of the target
    list: the results are the probes of those targets, each carries its
    target's name and address, and each failure is a status value of the
    result (the cycle is a total function). *)
Theorem ping_cycle_one_result_per_selected_target
    (float : string -> option Q) (system : string)
    (exec : list string -> Z -> communicate)
    (cfg : config) (lr : gmap string PingResult) :
  let selected_targets := List.filter selected (default [] (targets cfg)) in
  let results := (ping_all_targets float system exec cfg lr).1.1 in
  results = map (fun t => (ping_target float system exec (tgt_name t) (tgt_ip t) ∅).1.1)
                selected_targets
  /\ length results = length selected_targets
  /\ Forall2 (fun t r => target_name r = tgt_name t /\ target_ip r = tgt_ip t
                         /\ known_status (status r))
             selected_targets results.
Proof.
  intros selected_targets results.
  assert (E : results = map (fun t => (ping_target float system exec
                                         (tgt_name t) (tgt_ip t) ∅).1.1)
                            selected_targets).
  { unfold results, ping_all_targets. apply gather_results. }
  split; [exact E|]. rewrite E. split.
  - apply length_map.
  - clear E. induction selected_targets as [|t rest IH]; simpl; constructor.
    + pose proof (ping_target_fields float system exec (tgt_name t) (tgt_ip t) ∅) as H.
      simpl in H. tauto.
    + exact IH.
Qed.

(** ** The rate sampler *)

Section RateSamplerFacts.

Variable os : os_view.
Variables gateway_name interface : string.
Variable self : BandwidthMonitor.

(** The two shapes of a measurement. *)
Lemma measure_shape :
  let m := (measure os gateway_name interface self).1.1 in
  exists a b : Q, bytes_sent_rate m = max0 a /\ bytes_recv_rate m = max0 b.
Proof.
  unfold measure, measure_try.
  destruct (net_io_counters os) as [stats|e]; simpl;
    [|exists 0%Q, 0%Q; split; reflexivity].
  destruct (stats !! interface) as [nic|]; simpl.
  - destruct (last_measurements self !! interface) as [[[ls lr] lt]|]; simpl;
      [|exists 0%Q, 0%Q; split; reflexivity].
    destruct (Qgtb (time_time os - lt) 0) eqn:E; simpl;
      [|exists 0%Q, 0%Q; split; reflexivity].
    rewrite !truediv_pos by exact E. simpl. eauto.
  - destruct (get_available_interfaces _); simpl;
      exists 0%Q, 0%Q; split; reflexivity.
Qed.

(** With the interface present the [try] block completes. *)
Lemma measure_try_present stats nic :
  net_io_counters os = Ret stats -> stats !! interface = Some nic ->
  exists sent_rate recv_rate,
    measure_try os gateway_name interface self
    = Ret (let m := {| Monitor.gateway_name := gateway_name;
                       Monitor.interface := interface;
                       bytes_sent := io_bytes_sent nic;
                       bytes_recv := io_bytes_recv nic;
                       bytes_sent_rate := max0 sent_rate;
                       bytes_recv_rate := max0 recv_rate |} in
           (m,
            {| last_measurements :=
                 <[interface := (io_bytes_sent nic, io_bytes_recv nic, time_time os)]>
                   (last_measurements self);
               current_rates := <[gateway_name := m]> (current_rates self) |},
            []))
    /\ match last_measurements self !! interface with
       | Some (last_sent, last_recv, last_time) =>
           if Qgtb (time_time os - last_time) 0
           then sent_rate = (inject_Z (io_bytes_sent nic - last_sent)
                             / (time_time os - last_time))%Q
                /\ recv_rate = (inject_Z (io_bytes_recv nic - last_recv)
                                / (time_time os - last_time))%Q
           else sent_rate = 0%Q /\ recv_rate = 0%Q
       | None => sent_rate = 0%Q /\ recv_rate = 0%Q
       end.
Proof.
  intros Hs Hi. unfold measure_try. rewrite Hs. simpl. rewrite Hi.
  destruct (last_measurements self !! interface) as [[[ls lr] lt]|]; simpl;
    [|exists 0%Q, 0%Q; split; [reflexivity|split; reflexivity]].
  destruct (Qgtb (time_time os - lt) 0) eqn:E; simpl;
    [|exists 0%Q, 0%Q; split; [reflexivity|split; reflexivity]].
  rewrite !truediv_pos by exact E. simpl.
  eexists _, _. split; [reflexivity|split; reflexivity].
Qed.

End RateSamplerFacts.

(** C3.  Two consecutive [measure] calls on the same interface, present in
    both counter snapshots, with the counters grown by [dS] and [dR] and the
    clock advanced by [dt > 0]: the second sample's rates are [dS / dt] and
    [dR / dt] (exactly, floats being read as rationals). *)
Theorem measure_consecutive_rates
    (os1 os2 : os_view) (g1 g2 i : string) (self : BandwidthMonitor)
    (stats1 stats2 : gmap string snetio) (nic1 nic2 : snetio) :
  net_io_counters os1 = Ret stats1 -> stats1 !! i = Some nic1 ->
  net_io_counters os2 = Ret stats2 -> stats2 !! i = Some nic2 ->
  let dS := (io_bytes_sent nic2 - io_bytes_sent nic1)%Z in
  let dR := (io_bytes_recv nic2 - io_bytes_recv nic1)%Z in
  let dt := (time_time os2 - time_time os1)%Q in
  (0 <= dS)%Z -> (0 <= dR)%Z -> (0 < dt)%Q ->
  let self1 := (measure os1 g1 i self).1.2 in
  let m2 := (measure os2 g2 i self1).1.1 in
  (bytes_sent_rate m2 == inject_Z dS / dt)%Q
  /\ (bytes_recv_rate m2 == inject_Z dR / dt)%Q.
Proof.
  intros Hs1 Hi1 Hs2 Hi2 dS dR dt HdS HdR Hdt self1 m2.
  destruct (measure_try_present os1 g1 i self stats1 nic1 Hs1 Hi1)
    as (a1 & b1 & E1 & _).
  assert (Hcache : last_measurements self1 !! i
                   = Some (io_bytes_sent nic1, io_bytes_recv nic1, time_time os1)).
  { unfold self1, measure. rewrite E1. simpl. apply lookup_insert_eq. }
  destruct (measure_try_present os2 g2 i self1 stats2 nic2 Hs2 Hi2)
    as (a2 & b2 & E2 & Hr).
  rewrite Hcache in Hr.
  assert (Hgt : Qgtb (time_time os2 - time_time os1) 0 = true)
    by now apply Qgtb_true.
  rewrite Hgt in Hr. destruct Hr as [-> ->].
  unfold m2, measure. rewrite E2. simpl.
  split; apply max0_of_nonneg; apply Qdiv_nonneg; assumption.
Qed.

(** Scenario 2: [eth0] at (1000, 2000), then five seconds later at
    (6000, 7000), gives 1000 B/s in both directions. *)
Lemma measure_consecutive_rates_witness :
  let os1 := {| net_io_counters :=
                  Ret {[ "eth0" := {| io_bytes_sent := 1000; io_bytes_recv := 2000 |} ]};
                net_io_counters_again := Ret ∅; time_time := 100 |} in
  let os2 := {| net_io_counters :=
                  Ret {[ "eth0" := {| io_bytes_sent := 6000; io_bytes_recv := 7000 |} ]};
                net_io_counters_again := Ret ∅; time_time := 105 |} in
  let self := {| last_measurements := ∅; current_rates := ∅ |} in
  let self1 := (measure os1 "wan" "eth0" self).1.2 in
  let m2 := (measure os2 "wan" "eth0" self1).1.1 in
  (bytes_sent_rate m2 == 1000)%Q /\ (bytes_recv_rate m2 == 1000)%Q.
Proof.
  intros os1 os2 self self1 m2.
  destruct (measure_consecutive_rates os1 os2 "wan" "wan" "eth0" self
              {[ "eth0" := {| io_bytes_sent := 1000; io_bytes_recv := 2000 |} ]}
              {[ "eth0" := {| io_bytes_sent := 6000; io_bytes_recv := 7000 |} ]}
              {| io_bytes_sent := 1000; io_bytes_recv := 2000 |}
              {| io_bytes_sent := 6000; io_bytes_recv := 7000 |}
              eq_refl eq_refl eq_refl eq_refl
              ltac:(simpl; lia) ltac:(simpl; lia) ltac:(reflexivity))
    as [Hs Hr].
  split.
  - eapply Qeq_trans; [exact Hs | vm_compute; reflexivity].
  - eapply Qeq_trans; [exact Hr | vm_compute; reflexivity].
Defined.

(** C4.  Whatever path [measure] takes (counters unreadable, interface
    missing, first sample, clock not advanced, counters decreased, normal
    delta), both rates of the sample it returns are non-negative. *)
Theorem measure_rates_nonneg
    (os : os_view) (gateway_name interface : string) (self : BandwidthMonitor) :
  let m := (measure os gateway_name interface self).1.1 in
  (0 <= bytes_sent_rate m)%Q /\ (0 <= bytes_recv_rate m)%Q.
Proof.
  intros m.
  destruct (measure_shape os gateway_name interface self) as (a & b & Ha & Hb).
  fold m in Ha, Hb. rewrite Ha, Hb. split; apply max0_nonneg.
Qed.

(** C5.  When the interface is not in the counter snapshot, [measure]
    returns the all-zero sample, leaves the monitor (hence the interface's
    entry of [last_measurements]) as it was, and only prints a
    diagnostic. *)
Theorem measure_missing_interface
    (os : os_view) (gateway_name interface : string) (self : BandwidthMonitor)
    (stats : gmap string snetio) :
  net_io_counters os = Ret stats -> stats !! interface = None ->
  let '(m, self', effs) := measure os gateway_name interface self in
  m = zero_measurement gateway_name interface
  /\ bytes_sent m = 0%Z /\ bytes_recv m = 0%Z
  /\ bytes_sent_rate m = 0%Q /\ bytes_recv_rate m = 0%Q
  /\ self' = self
  /\ last_measurements self' !! interface = last_measurements self !! interface
  /\ exists d, effs = [Print d].
Proof.
  intros Hs Hi. unfold measure, measure_try. rewrite Hs. simpl. rewrite Hi.
  destruct (get_available_interfaces (net_io_counters_again os)); simpl;
    repeat split; eauto.
Qed.

Lemma measure_missing_interface_witness :
  let os := {| net_io_counters :=
                 Ret {[ "eth0" := {| io_bytes_sent := 1000; io_bytes_recv := 2000 |} ]};
               net_io_counters_again := Raise OtherError; time_time := 100 |} in
  let self := {| last_measurements := {[ "wlan9" := (5%Z, 6%Z, 7%Q) ]};
                 current_rates := ∅ |} in
  (measure os "wan" "wlan9" self).1.1 = zero_measurement "wan" "wlan9"
  /\ (measure os "wan" "wlan9" self).1.2 = self.
Proof.
  intros os self.
  pose proof (measure_missing_interface os "wan" "wlan9" self
                {[ "eth0" := {| io_bytes_sent := 1000; io_bytes_recv := 2000 |} ]}
                eq_refl eq_refl) as H.
  destruct (measure os "wan" "wlan9" self) as [[m self'] effs].
  simpl. split; [apply H | apply H].
Defined.

(** C10.  With a cached sample whose time stamp is not before the current
    clock reading, [measure] reports both rates as 0 and stores the new
    reading; and whatever the cached sample and the clock reading are, the
    [try] block completes once the counters of the interface were read: the
    division is reached only with a positive divisor. *)
Theorem measure_clock_not_advanced
    (os : os_view) (gateway_name interface : string) (self : BandwidthMonitor)
    (stats : gmap string snetio) (nic : snetio) (last_sent last_recv : Z) (last_time : Q) :
  net_io_counters os = Ret stats -> stats !! interface = Some nic ->
  last_measurements self !! interface = Some (last_sent, last_recv, last_time) ->
  (time_time os - last_time <= 0)%Q ->
  (let '(m, self', effs) := measure os gateway_name interface self in
   bytes_sent_rate m = 0%Q /\ bytes_recv_rate m = 0%Q
   /\ bytes_sent m = io_bytes_sent nic /\ bytes_recv m = io_bytes_recv nic
   /\ last_measurements self' !! interface
      = Some (io_bytes_sent nic, io_bytes_recv nic, time_time os)
   /\ effs = [])
  /\ (forall (now : Q) (cache : gmap string (Z * Z * Q))
             (rates : gmap string BandwidthMeasurement),
        exists r,
          measure_try {| net_io_counters := Ret stats;
                         net_io_counters_again := net_io_counters_again os;
                         time_time := now |}
                      gateway_name interface
                      {| last_measurements := cache; current_rates := rates |}
          = Ret r).
Proof.
  intros Hs Hi Hl Ht. split.
  - destruct (measure_try_present os gateway_name interface self stats nic Hs Hi)
      as (a & b & E & Hr).
    rewrite Hl in Hr. apply Qgtb_false in Ht. rewrite Ht in Hr.
    destruct Hr as [-> ->].
    unfold measure. rewrite E. simpl.
    repeat split. apply lookup_insert_eq.
  - intros now cache rates.
    destruct (measure_try_present
                {| net_io_counters := Ret stats;
                   net_io_counters_again := net_io_counters_again os;
                   time_time := now |}
                gateway_name interface
                {| last_measurements := cache; current_rates := rates |}
                stats nic eq_refl Hi) as (a & b & E & _).
    eexists. exact E.
Qed.

(** A clock that went back by three seconds. *)
Lemma measure_clock_not_advanced_witness :
  let os := {| net_io_counters :=
                 Ret {[ "eth0" := {| io_bytes_sent := 6000; io_bytes_recv := 7000 |} ]};
               net_io_counters_again := Ret ∅; time_time := 97 |} in
  let self := {| last_measurements := {[ "eth0" := (1000%Z, 2000%Z, 100%Q) ]};
                 current_rates := ∅ |} in
  bytes_sent_rate (measure os "wan" "eth0" self).1.1 = 0%Q
  /\ bytes_recv_rate (measure os "wan" "eth0" self).1.1 = 0%Q.
Proof.
  intros os self.
  destruct (measure_clock_not_advanced os "wan" "eth0" self
              {[ "eth0" := {| io_bytes_sent := 6000; io_bytes_recv := 7000 |} ]}
              {| io_bytes_sent := 6000; io_bytes_recv := 7000 |}
              1000 2000 100
              eq_refl eq_refl eq_refl ltac:(vm_compute; discriminate)) as [H _].
  destruct (measure os "wan" "eth0" self) as [[m self'] effs].
  simpl. split; apply H.
Defined.

(** ** Alerts *)

(** With thresholds disabled, or the ['alerts'] section or its ['enabled']
    key missing, nothing is saved and nothing is raised. *)
Lemma check_alerts_disabled (cfg : config) (result : PingResult) (d : database) :
  default false (alerts_enabled (default no_alerts_config (alerts cfg))) = false ->
  check_alerts cfg result d = (Ret tt, d).
Proof. intros H. unfold check_alerts. now rewrite H. Qed.

Lemma check_alerts_configured
    (ts : option (list target)) (gs : option (list gateway))
    (latency_thr loss_thr : Q) (result : PingResult) (d : database) :
  check_alerts {| targets := ts; gateways := gs;
                  alerts := Some {| alerts_enabled := Some true;
                                    ping_threshold_ms := Some latency_thr;
                                    packet_loss_threshold_percent := Some loss_thr |} |}
               result d
  = (Ret tt, {| ping_results := ping_results d;
                alerts_table := alerts_table d
                                ++ expected_alerts latency_thr loss_thr result |}).
Proof.
  unfold check_alerts, expected_alerts, save_alert. simpl.
  destruct d as [rows als]. simpl.
  destruct (latency_ms result) as [l|]; simpl.
  - destruct (Qnonzero l && Qgtb l latency_thr)%bool; simpl;
      destruct (Qgtb (packet_loss result) loss_thr); simpl;
      rewrite ?app_nil_r, <- ?app_assoc; reflexivity.
  - destruct (Qgtb (packet_loss result) loss_thr); simpl;
      rewrite ?app_nil_r; reflexivity.
Qed.

(** Whatever the configuration, an alert that is saved is a
    [high_latency] warning or a [packet_loss] alert that is critical
    exactly above 50. *)
Lemma check_alerts_severity (cfg : config) (result : PingResult) (al : alert) :
  In al (alerts_table (check_alerts cfg result Demo.no_rows).2) ->
  (alert_type al = "high_latency" /\ severity al = "warning")
  \/ (alert_type al = "packet_loss"
      /\ severity al = if Qgtb (packet_loss result) 50 then "critical" else "warning").
Proof.
  unfold check_alerts.
  destruct (default false _); [|intros []].
  destruct (latency_ms result) as [l|]; simpl.
  - destruct (Qnonzero l && Qgtb l _)%bool; simpl.
    + destruct (ping_threshold_ms _); simpl; [|intros []].
      destruct (Qgtb (packet_loss result) _); simpl.
      * destruct (packet_loss_threshold_percent _); simpl;
          intros H; repeat (destruct H as [<-|H]; [simpl; auto|]); destruct H.
      * intros H; repeat (destruct H as [<-|H]; [simpl; auto|]); destruct H.
    + destruct (Qgtb (packet_loss result) _); simpl; [|intros []].
      destruct (packet_loss_threshold_percent _); simpl;
        intros H; repeat (destruct H as [<-|H]; [simpl; auto|]); destruct H.
  - destruct (Qgtb (packet_loss result) _); simpl; [|intros []].
    destruct (packet_loss_threshold_percent _); simpl;
      intros H; repeat (destruct H as [<-|H]; [simpl; auto|]); destruct H.
Qed.

(** C6.  Where the code parts from the claim.  (1) With alerts enabled and
    no ['ping_threshold_ms'] key, the comparison uses the default 100 but
    the message indexes the missing key: a latency of 150 ms raises
    [KeyError] and no alert is saved.  (2) A latency of exactly 0 is
    present but falsy: with a threshold of -1 it exceeds the threshold and
    yet no alert is saved, while 0.5 ms does alert. *)
Theorem high_latency_alert_missed :
  check_alerts (Demo.alerts_only (Some true) None (Some 5%Q))
               (Demo.probe (Some 150%Q) 0 "success") Demo.no_rows
  = (Raise (KeyError "ping_threshold_ms"), Demo.no_rows)
  /\ check_alerts (Demo.alerts_only (Some true) (Some (-1)%Q) (Some 5%Q))
                  (Demo.probe (Some 0%Q) 0 "success") Demo.no_rows
     = (Ret tt, Demo.no_rows)
  /\ alerts_table
       (check_alerts (Demo.alerts_only (Some true) (Some (-1)%Q) (Some 5%Q))
                     (Demo.probe (Some 0.5%Q) 0 "success") Demo.no_rows).2
     = [{| alert_type := "high_latency"; alert_target_name := "A";
           message := HighLatencyDetected 0.5 (-1); severity := "warning" |}].
Proof. repeat split; reflexivity. Qed.

(** C7.  Where the code parts from the claim: a loss of 66.7 percent exceeds
    the configured loss threshold of 5, but with no ['ping_threshold_ms']
    key the latency of 150 ms raises [KeyError] before the loss is looked
    at; and with no ['packet_loss_threshold_percent'] key a loss of 100
    exceeds the default 5 and raises [KeyError] when the message is built.
    No [packet_loss] alert is saved in either case. *)
Theorem packet_loss_alert_missed :
  check_alerts (Demo.alerts_only (Some true) None (Some 5%Q))
               (Demo.probe (Some 150%Q) 66.7 "success") Demo.no_rows
  = (Raise (KeyError "ping_threshold_ms"), Demo.no_rows)
  /\ check_alerts (Demo.alerts_only (Some true) (Some 100%Q) None)
                  (Demo.probe None 100 "timeout") Demo.no_rows
     = (Raise (KeyError "packet_loss_threshold_percent"), Demo.no_rows).
Proof. split; reflexivity. Qed.

(** ** Broadcast *)

Section BroadcastFacts.

Variable send_json : WebSocket -> envelope -> res unit.
Variable meanwhile : WebSocket -> gset WebSocket -> gset WebSocket.
Variable unspecified :
  gset WebSocket -> gset WebSocket -> list WebSocket
  -> res unit * gset WebSocket * list WebSocket.
Variable msg : envelope.

(** Left alone, the loop attempts every connection it is given and
    collects those whose send raised. *)
Lemma send_all_undisturbed (active : gset WebSocket) (conns : list WebSocket)
    (D : gset WebSocket) (A : list WebSocket) :
  undisturbed meanwhile ->
  exists D',
    send_all send_json meanwhile unspecified msg active conns D A
    = (Ret tt, active ∖ D', A ++ conns)
    /\ forall c, c ∈ D' <-> c ∈ D \/ (c ∈ conns /\ exists e, send_json c msg = Raise e).
Proof.
  intros Hq. revert D A. induction conns as [|c0 rest IH]; intros D A.
  - exists D. simpl. rewrite app_nil_r. split; [reflexivity|].
    intros c. split; [auto|]. intros [H|[H _]]; [exact H|]. inversion H.
  - cbn [send_all]. cbv zeta. rewrite (Hq c0 active).
    destruct (decide (active = active)) as [_|Hn]; [|contradiction].
    destruct (send_json c0 msg) as [u|e] eqn:E.
    + destruct (IH D (A ++ [c0])) as (D' & HS & HD).
      exists D'. rewrite HS, <- app_assoc. split; [reflexivity|].
      intros c. rewrite HD. split.
      * intros [H|[H He]]; [auto|]. right. split; [now constructor|exact He].
      * intros [H|[H He]]; [auto|]. right. split; [|exact He].
        apply elem_of_cons in H as [->|H]; [|exact H].
        destruct He as [e He]. congruence.
    + destruct (IH ({[c0]} ∪ D) (A ++ [c0])) as (D' & HS & HD).
      exists D'. rewrite HS, <- app_assoc. split; [reflexivity|].
      intros c. rewrite HD, elem_of_union, elem_of_singleton, elem_of_cons.
      split.
      * intros [[->|H]|[H He]]; eauto.
      * intros [H|[[->|H] He]]; eauto.
Qed.

(** The first await during which the set changes its size ends the loop:
    the iterator raises when it is asked for the next connection. *)
Lemma send_all_disturbed (active : gset WebSocket)
    (before : list WebSocket) (c : WebSocket) (after : list WebSocket)
    (D : gset WebSocket) (A : list WebSocket) :
  (forall c', c' ∈ before -> meanwhile c' active = active) ->
  size (meanwhile c active) <> size active ->
  send_all send_json meanwhile unspecified msg active (before ++ c :: after) D A
  = (Raise set_changed_size, meanwhile c active, A ++ before ++ [c]).
Proof.
  intros Hb Hc. revert D A. induction before as [|c0 rest IH]; intros D A.
  - cbn [List.app send_all]. cbv zeta.
    destruct (decide (meanwhile c active = active)) as [E|_];
      [exfalso; apply Hc; now rewrite E|].
    apply Nat.eqb_neq in Hc. rewrite Hc. reflexivity.
  - cbn [List.app send_all]. cbv zeta.
    rewrite (Hb c0) by (now constructor).
    destruct (decide (active = active)) as [_|Hn]; [|contradiction].
    rewrite IH by (intros c' H; apply Hb; now constructor).
    now rewrite <- app_assoc.
Qed.

(** Left alone, [broadcast] returns, has attempted every connection in
    iteration order, and keeps exactly those whose send returned. *)
Lemma broadcast_undisturbed (active : gset WebSocket) :
  undisturbed meanwhile ->
  exists active',
    broadcast send_json meanwhile unspecified msg active
    = (Ret tt, active', elements active)
    /\ forall c, c ∈ active' <-> c ∈ active /\ exists u, send_json c msg = Ret u.
Proof.
  intros Hq. unfold broadcast. destruct (decide (active = ∅)) as [->|Hne].
  - exists ∅. rewrite elements_empty. split; [reflexivity|].
    intros c. split; [intros H|intros [H _]]; exfalso; exact (not_elem_of_empty c H).
  - destruct (send_all_undisturbed active (elements active) ∅ [] Hq) as (D & HS & HD).
    exists (active ∖ D). split; [exact HS|].
    intros c. rewrite elem_of_difference, HD, elem_of_elements. split.
    + intros [Hc Hn]. split; [exact Hc|].
      destruct (send_json c msg) as [u|e] eqn:E; [eauto|].
      exfalso. apply Hn. right. eauto.
    + intros [Hc [u Hu]]. split; [exact Hc|].
      intros [H|[_ [e He]]]; [exact (not_elem_of_empty c H)|congruence].
Qed.

End BroadcastFacts.

(** C8.  [broadcast] iterates the live set.  When another task changes
    the size of that set while the send to a connection [c] is awaited (a
    client connects or leaves, another broadcast prunes), the call raises
    [RuntimeError] to its caller as soon as the send to [c] is over: the
    connections after [c] are not attempted, and no connection whose send
    failed is removed, the set being left as the other task made it. *)
Theorem broadcast_raises_when_set_changes
    (send_json : WebSocket -> envelope -> res unit)
    (meanwhile : WebSocket -> gset WebSocket -> gset WebSocket)
    (unspecified : gset WebSocket -> gset WebSocket -> list WebSocket
                   -> res unit * gset WebSocket * list WebSocket)
    (msg : envelope) (active : gset WebSocket)
    (before : list WebSocket) (c : WebSocket) (after : list WebSocket) :
  elements active = before ++ c :: after ->
  (forall c', c' ∈ before -> meanwhile c' active = active) ->
  size (meanwhile c active) <> size active ->
  broadcast send_json meanwhile unspecified msg active
  = (Raise (RuntimeError "Set changed size during iteration"),
     meanwhile c active, before ++ [c]).
Proof.
  intros He Hb Hc. unfold broadcast.
  destruct (decide (active = ∅)) as [->|Hne].
  - rewrite elements_empty in He. destruct before; discriminate.
  - rewrite He. apply send_all_disturbed; assumption.
Qed.

(** Four clients, iterated in the order 5, 3, 2, 1; the connections 5
    and 2 are broken, and client 7 connects while the send to 2 is
    awaited.  The task that broadcasts gets a [RuntimeError], client 1
    gets nothing and the broken connections stay in the set. *)
Lemma broadcast_raises_when_set_changes_witness :
  broadcast Demo.send_json (Demo.joins_during 2%positive 7%positive)
            Demo.iteration_ends (ping_update [])
            {[ 1%positive; 2%positive; 3%positive; 5%positive ]}
  = (Raise (RuntimeError "Set changed size during iteration"),
     {[ 1%positive; 2%positive; 3%positive; 5%positive; 7%positive ]},
     [ 5%positive; 3%positive; 2%positive ]).
Proof.
  rewrite (broadcast_raises_when_set_changes
             Demo.send_json (Demo.joins_during 2%positive 7%positive)
             Demo.iteration_ends (ping_update [])
             {[ 1%positive; 2%positive; 3%positive; 5%positive ]}
             [ 5%positive; 3%positive ] 2%positive [ 1%positive ]).
  - vm_compute. reflexivity.
  - vm_compute. reflexivity.
  - intros c' H. apply elem_of_cons in H as [->|H]; [reflexivity|].
    apply elem_of_cons in H as [->|H]; [reflexivity|]. inversion H.
  - vm_compute. discriminate.
Defined.

(** ** Target administration *)

Section DuplicateFacts.

Variable str_lower : string -> string.

Lemma duplicate_of_None (target : TargetCreate) (t : Monitor.target) :
  duplicate_of str_lower target t = None <-> ~ duplicates str_lower target t.
Proof.
  unfold duplicate_of, duplicates.
  destruct (String.eqb (str_lower (tgt_name t)) (str_lower (name target))) eqn:En.
  - apply String.eqb_eq in En. split; [discriminate|]. intros H. exfalso. auto.
  - apply String.eqb_neq in En.
    destruct (String.eqb (tgt_ip t) (ip target)) eqn:Ei.
    + apply String.eqb_eq in Ei. split; [discriminate|]. intros H. exfalso. auto.
    + apply String.eqb_neq in Ei. split; [|reflexivity]. intros _ [H|H]; auto.
Qed.

Lemma duplicate_of_Some (target : TargetCreate) (t : Monitor.target) (e : exn) :
  duplicate_of str_lower target t = Some e -> exists detail, e = HTTPException 400 detail.
Proof.
  unfold duplicate_of.
  destruct (String.eqb (str_lower (tgt_name t)) (str_lower (name target))).
  - intros [= <-]. eauto.
  - destruct (String.eqb (tgt_ip t) (ip target)); [|discriminate].
    intros [= <-]. eauto.
Qed.

Lemma first_duplicate_found (target : TargetCreate) (ts : list Monitor.target) :
  Exists (duplicates str_lower target) ts ->
  exists detail,
    first_return (duplicate_of str_lower target) ts = Some (HTTPException 400 detail).
Proof.
  induction ts as [|t rest IH]; intros H; [inversion H|]. simpl.
  destruct (duplicate_of str_lower target t) as [e|] eqn:E.
  - destruct (duplicate_of_Some target t e E) as [d ->]. eauto.
  - apply duplicate_of_None in E. apply IH.
    inversion H; subst; [contradiction|assumption].
Qed.

Lemma first_duplicate_none (target : TargetCreate) (ts : list Monitor.target) :
  Forall (fun t => ~ duplicates str_lower target t) ts ->
  first_return (duplicate_of str_lower target) ts = None.
Proof.
  induction 1 as [|t rest Ht _ IH]; simpl; [reflexivity|].
  apply duplicate_of_None in Ht. now rewrite Ht.
Qed.

End DuplicateFacts.

Lemma check_alerts_raises (cfg : config) (result : PingResult) (d d' : database) (e : exn) :
  check_alerts cfg result d = (Raise e, d') -> exists key, e = KeyError key.
Proof.
  unfold check_alerts.
  destruct (default false _); [|discriminate].
  destruct (latency_ms result) as [l|]; simpl.
  - destruct (Qnonzero l && Qgtb l _)%bool; simpl.
    + destruct (ping_threshold_ms _); simpl; [|intros [= <- _]; eauto].
      destruct (Qgtb (packet_loss result) _); [|discriminate].
      destruct (packet_loss_threshold_percent _); [discriminate|].
      intros [= <- _]; eauto.
    + destruct (Qgtb (packet_loss result) _); [|discriminate].
      destruct (packet_loss_threshold_percent _); [discriminate|].
      intros [= <- _]; eauto.
  - destruct (Qgtb (packet_loss result) _); [|discriminate].
    destruct (packet_loss_threshold_percent _); [discriminate|].
    intros [= <- _]; eauto.
Qed.

Lemma process_results_raises (cfg : config) (results : list PingResult)
    (d d' : database) (e : exn) :
  process_results cfg results d = (Raise e, d') -> exists key, e = KeyError key.
Proof.
  revert d. induction results as [|r rest IH]; intros d; simpl; [discriminate|].
  destruct (check_alerts cfg r (save_ping_result r d)) as [[u|e0] d1] eqn:E.
  - apply IH.
  - intros [= <- _]. eapply check_alerts_raises. exact E.
Qed.

(** With both thresholds configured, or the alerts off, no alert message
    fails to build. *)
Lemma check_alerts_returns (cfg : config) (result : PingResult) (d : database) :
  thresholds_configured cfg = true -> (check_alerts cfg result d).1 = Ret tt.
Proof.
  unfold thresholds_configured, check_alerts.
  destruct (default false _); simpl; [|reflexivity].
  destruct (ping_threshold_ms _); [|discriminate].
  destruct (packet_loss_threshold_percent _); [|discriminate]. intros _.
  destruct (latency_ms result) as [l|]; simpl;
    [destruct (Qnonzero l && Qgtb l _)%bool; simpl|];
    destruct (Qgtb (packet_loss result) _); reflexivity.
Qed.

Lemma process_results_returns (cfg : config) (results : list PingResult) (d : database) :
  thresholds_configured cfg = true -> (process_results cfg results d).1 = Ret tt.
Proof.
  intros Hc. revert d. induction results as [|r rest IH]; intros d; simpl; [reflexivity|].
  pose proof (check_alerts_returns cfg r (save_ping_result r d) Hc) as H.
  destruct (check_alerts cfg r (save_ping_result r d)) as [[[]|e0] d1]; simpl in H.
  - apply IH.
  - discriminate.
Qed.

Section StorageFacts.

Variable storing_ping : PingResult -> res unit.
Variable storing_alert : alert -> res unit.

(** When every save returns, the loop is [process_results]. *)
Lemma check_alerts_storing_stores (cfg : config) (result : PingResult) (d : database) :
  always_stores storing_alert ->
  check_alerts_storing storing_alert cfg result d = check_alerts cfg result d.
Proof.
  intros Hs. unfold check_alerts_storing, check_alerts, saving_alert. cbv zeta.
  set (alerts_config := default no_alerts_config (alerts cfg)).
  destruct (default false (alerts_enabled alerts_config)); [|reflexivity].
  destruct (ping_threshold_ms alerts_config) as [latency_thr|];
    destruct (packet_loss_threshold_percent alerts_config) as [loss_thr|];
    destruct (latency_ms result) as [l|]; simpl;
    repeat match goal with
           | |- context [if ?b then _ else _] => destruct b; simpl
           end;
    rewrite ?Hs; reflexivity.
Qed.

Lemma process_results_storing_stores
    (cfg : config) (results : list PingResult) (d : database) :
  always_stores storing_ping -> always_stores storing_alert ->
  process_results_storing storing_ping storing_alert cfg results d
  = process_results cfg results d.
Proof.
  intros Hp Ha. revert d. induction results as [|r rest IH]; intros d; simpl;
    [reflexivity|].
  rewrite Hp, (check_alerts_storing_stores cfg r _ Ha).
  destruct (check_alerts cfg r (save_ping_result r d)) as [[u|e] d1];
    [apply IH|reflexivity].
Qed.

End StorageFacts.

Section ServerFacts.

Variable float : string -> option Q.
Variable system : string.
Variable exec : list string -> Z -> communicate.
Variable send_json : WebSocket -> envelope -> res unit.
Variable meanwhile : WebSocket -> gset WebSocket -> gset WebSocket.
Variable unspecified :
  gset WebSocket -> gset WebSocket -> list WebSocket
  -> res unit * gset WebSocket * list WebSocket.
Variable storing_ping : PingResult -> res unit.
Variable storing_alert : alert -> res unit.

(** A ping cycle leaves the configuration alone, however it ends. *)
Lemma ping_task_config (a : app) :
  let a' := (ping_task float system exec send_json meanwhile unspecified
                       storing_ping storing_alert a).2 in
  app_config a' = app_config a /\ config_file a' = config_file a.
Proof.
  unfold ping_task. destruct (network_monitor a) as [nm|]; [|auto].
  destruct (ping_all_targets _ _ _ _ _) as [[results lr] effs].
  destruct (process_results_storing _ _ _ _ _) as [[u|e] d'].
  - destruct (broadcast _ _ _ _ _) as [[sent active] attempted]. simpl. auto.
  - simpl. auto.
Qed.

(** When the monitor exists, the database takes every row, every alert
    message can be built and the connections are left alone, [ping_task]
    returns: it has stored every result and broadcast one [ping_update]
    carrying the results of the cycle, in the order [ping_all_targets]
    returned them, to every active connection. *)
Lemma ping_task_broadcasts_results (a : app) (nm : NetworkMonitor) :
  network_monitor a = Some nm ->
  always_stores storing_ping -> always_stores storing_alert ->
  undisturbed meanwhile ->
  thresholds_configured (app_config a) = true ->
  let results :=
    (ping_all_targets float system exec (app_config a) (ping_monitor nm)).1.1 in
  let '(r, a') := ping_task float system exec send_json meanwhile unspecified
                            storing_ping storing_alert a in
  r = Ret tt
  /\ db a' = (process_results (app_config a) results (db a)).2
  /\ outbox a' = outbox a ++ [(ping_update results, elements (manager a))].
Proof.
  intros Hnm Hp Ha Hq Hc results. unfold ping_task. rewrite Hnm.
  unfold results.
  destruct (ping_all_targets float system exec (app_config a) (ping_monitor nm))
    as [[rs lr] effs].
  rewrite (process_results_storing_stores _ _ _ _ _ Hp Ha).
  pose proof (process_results_returns (app_config a) rs (db a) Hc) as Hr.
  simpl. destruct (process_results (app_config a) rs (db a)) as [r d']. simpl in Hr.
  subst r.
  destruct (broadcast_undisturbed send_json meanwhile unspecified
              (ping_update rs) (manager a) Hq) as (active' & -> & _).
  simpl. auto.
Qed.

(** Under the same conditions a ping cycle returns, with or without a
    monitor. *)
Lemma ping_task_returns (a : app) :
  always_stores storing_ping -> always_stores storing_alert ->
  undisturbed meanwhile ->
  thresholds_configured (app_config a) = true ->
  (ping_task float system exec send_json meanwhile unspecified
             storing_ping storing_alert a).1 = Ret tt.
Proof.
  intros Hp Ha Hq Hc.
  destruct (network_monitor a) as [nm|] eqn:Hnm.
  - pose proof (ping_task_broadcasts_results a nm Hnm Hp Ha Hq Hc) as H.
    cbv zeta in H.
    destruct (ping_task float system exec send_json meanwhile unspecified
                        storing_ping storing_alert a) as [r a'].
    apply H.
  - unfold ping_task. now rewrite Hnm.
Qed.

Lemma post_api_targets_validates (str_lower : string -> string)
    (target : TargetCreate) (a : app) :
  post_api_targets float system exec send_json meanwhile unspecified
                   storing_ping storing_alert str_lower target a
  = add_target float system exec send_json meanwhile unspecified
               storing_ping storing_alert str_lower target a.
Proof. reflexivity. Qed.

End ServerFacts.

(** C9.  A [POST /api/targets] request is served by the validating
    handler.  If an existing target has the same name up to case, or the
    same address, the request fails with the 400 validation error and the
    whole application state (target list, saved configuration, database,
    probes launched) is as before.  A request that repeats no target is
    not always accepted.  When the configuration has no ['targets'] key
    it fails with [KeyError] and nothing is added.  Otherwise the new
    target is appended to the target list, the configuration is saved and
    a ping cycle runs at once; the answer is [created] exactly when that
    cycle returns, and the exception of the cycle otherwise, the target
    staying added.  The cycle returns, and the request is accepted, when
    the database takes every row, every alert message can be built and
    the connections are left alone during the broadcast. *)
Theorem add_target_rejects_duplicates
    (float : string -> option Q) (system : string)
    (exec : list string -> Z -> communicate)
    (send_json : WebSocket -> envelope -> res unit)
    (meanwhile : WebSocket -> gset WebSocket -> gset WebSocket)
    (unspecified : gset WebSocket -> gset WebSocket -> list WebSocket
                   -> res unit * gset WebSocket * list WebSocket)
    (storing_ping : PingResult -> res unit) (storing_alert : alert -> res unit)
    (str_lower : string -> string)
    (target : TargetCreate) (a : app) :
  let post := post_api_targets float system exec send_json meanwhile unspecified
                               storing_ping storing_alert str_lower target a in
  (Exists (duplicates str_lower target) (default [] (targets (app_config a))) ->
   exists detail, post = (Raise (HTTPException 400 detail), a))
  /\ (targets (app_config a) = None -> post = (Raise (KeyError "targets"), a))
  /\ (forall ts,
        targets (app_config a) = Some ts ->
        Forall (fun t => ~ duplicates str_lower target t) ts ->
        let cycle := ping_task float system exec send_json meanwhile unspecified
                               storing_ping storing_alert
                               (with_targets (ts ++ [new_target_of target]) a) in
        post = (match cycle.1 with
                | Ret _ => Ret (Created (new_target_of target))
                | Raise e => Raise e
                end, cycle.2)
        /\ targets (app_config cycle.2) = Some (ts ++ [new_target_of target])
        /\ config_file cycle.2 = Some (app_config cycle.2)
        /\ (always_stores storing_ping -> always_stores storing_alert ->
            undisturbed meanwhile ->
            thresholds_configured (app_config a) = true ->
            post.1 = Ret (Created (new_target_of target)))).
Proof.
  intros post. unfold post. rewrite post_api_targets_validates.
  unfold add_target. split; [|split].
  - intros H. destruct (first_duplicate_found str_lower target _ H) as [d ->]. eauto.
  - intros Hn. rewrite Hn. reflexivity.
  - intros ts Hts Hfresh. rewrite Hts. simpl.
    rewrite (first_duplicate_none str_lower target ts Hfresh).
    fold (new_target_of target).
    set (cycle := ping_task float system exec send_json meanwhile unspecified
                            storing_ping storing_alert
                            (with_targets (ts ++ [new_target_of target]) a)).
    pose proof (ping_task_config float system exec send_json meanwhile unspecified
                  storing_ping storing_alert
                  (with_targets (ts ++ [new_target_of target]) a)) as [Hc Hf].
    fold cycle in Hc, Hf. simpl in Hc, Hf.
    assert (Hpost : (match cycle with
                     | (Ret _, a') => (Ret (Created (new_target_of target)), a')
                     | (Raise e, a') => (Raise e, a')
                     end)
                    = (match cycle.1 with
                       | Ret _ => Ret (Created (new_target_of target))
                       | Raise e => Raise e
                       end, cycle.2))
      by (destruct cycle as [[u|e] a']; reflexivity).
    rewrite Hpost. split; [reflexivity|].
    rewrite Hc, Hf. split; [reflexivity|]. split; [reflexivity|].
    intros Hp Ha Hq Ht. simpl.
    unfold cycle.
    rewrite (ping_task_returns float system exec send_json meanwhile unspecified
               storing_ping storing_alert _ Hp Ha Hq); [reflexivity|].
    exact Ht.
Qed.

(** A request for [a] meets the existing target [A] and is rejected.  A
    configuration without a target list accepts no request.  With alerts
    enabled and no threshold configured, a request for [D] is answered
    with the [KeyError] of the ping cycle, and [D] has been added.  With
    a healthy configuration the request for [D] is answered [created]. *)
Lemma add_target_rejects_duplicates_witness :
  (exists detail,
     post_api_targets Demo.float "linux" Demo.exec3 Demo.send_json Demo.quiet
       Demo.iteration_ends Demo.stores Demo.stores lower
       {| name := "a"; ip := "10.9.9.9"; enabled := true |} (Demo.idle_app Demo.cfg3)
     = (Raise (HTTPException 400 detail), Demo.idle_app Demo.cfg3))
  /\ post_api_targets Demo.float "linux" Demo.exec3 Demo.send_json Demo.quiet
       Demo.iteration_ends Demo.stores Demo.stores lower
       {| name := "D"; ip := "10.0.0.4"; enabled := true |}
       (Demo.idle_app (Demo.alerts_only (Some true) (Some 100%Q) (Some 5%Q)))
     = (Raise (KeyError "targets"),
        Demo.idle_app (Demo.alerts_only (Some true) (Some 100%Q) (Some 5%Q)))
  /\ (let post :=
        post_api_targets Demo.float "linux" Demo.exec3 Demo.send_json Demo.quiet
          Demo.iteration_ends Demo.stores Demo.stores lower
          {| name := "D"; ip := "10.0.0.4"; enabled := true |}
          (Demo.idle_app Samples.cfg_alerts_without_thresholds) in
      post.1 = Raise (KeyError "packet_loss_threshold_percent")
      /\ targets (app_config post.2)
         = Some [ Demo.mk_target "C" "10.0.0.3" (Some "ping") (Some true);
                  Demo.mk_target "D" "10.0.0.4" (Some "ping") (Some true) ])
  /\ (post_api_targets Demo.float "linux" Demo.exec3 Demo.send_json Demo.quiet
        Demo.iteration_ends Demo.stores Demo.stores lower
        {| name := "D"; ip := "10.0.0.4"; enabled := true |}
        (Demo.idle_app Demo.cfg3)).1
     = Ret (Created (Demo.mk_target "D" "10.0.0.4" (Some "ping") (Some true))).
Proof.
  split; [|split; [|split]].
  - pose proof (proj1 (add_target_rejects_duplicates
                         Demo.float "linux" Demo.exec3 Demo.send_json Demo.quiet
                         Demo.iteration_ends Demo.stores Demo.stores lower
                         {| name := "a"; ip := "10.9.9.9"; enabled := true |}
                         (Demo.idle_app Demo.cfg3))) as H.
    apply H. apply Exists_cons_hd. left. reflexivity.
  - pose proof (proj1 (proj2 (add_target_rejects_duplicates
                         Demo.float "linux" Demo.exec3 Demo.send_json Demo.quiet
                         Demo.iteration_ends Demo.stores Demo.stores lower
                         {| name := "D"; ip := "10.0.0.4"; enabled := true |}
                         (Demo.idle_app
                            (Demo.alerts_only (Some true) (Some 100%Q) (Some 5%Q))))))
      as H.
    apply H. reflexivity.
  - pose proof (proj2 (proj2 (add_target_rejects_duplicates
                         Demo.float "linux" Demo.exec3 Demo.send_json Demo.quiet
                         Demo.iteration_ends Demo.stores Demo.stores lower
                         {| name := "D"; ip := "10.0.0.4"; enabled := true |}
                         (Demo.idle_app Samples.cfg_alerts_without_thresholds)))
                  _ eq_refl) as H.
    cbv zeta in H |- *.
    destruct H as (-> & Ht & _).
    + repeat constructor; intros [E|E]; vm_compute in E; discriminate.
    + split; [vm_compute; reflexivity|]. exact Ht.
  - pose proof (proj2 (proj2 (add_target_rejects_duplicates
                         Demo.float "linux" Demo.exec3 Demo.send_json Demo.quiet
                         Demo.iteration_ends Demo.stores Demo.stores lower
                         {| name := "D"; ip := "10.0.0.4"; enabled := true |}
                         (Demo.idle_app Demo.cfg3)))
                  _ eq_refl) as H.
    cbv zeta in H.
    destruct H as (_ & _ & _ & H).
    + repeat constructor; intros [E|E]; vm_compute in E; discriminate.
    + apply H; try (intros x; reflexivity); try (intros c s; reflexivity).
      reflexivity.
Defined.

(** ** The cycle as a whole *)

(** A locked database ends the cycle at the first result: nothing is
    stored and nothing is broadcast. *)
Example scenario_locked_database :
  let '(r, a') :=
    ping_task Demo.float "linux" Demo.exec3 Demo.send_json Demo.quiet
              Demo.iteration_ends Demo.locked Demo.stores
              (Demo.idle_app Demo.cfg3) in
  r = Raise OtherError /\ db a' = Demo.no_rows /\ outbox a' = [].
Proof. vm_compute. repeat split; reflexivity. Qed.

(** ** Scenarios *)

(** Targets A, B, C: two answer in 11.5 ms, the third runs into the
    deadline.  Three results, in input order. *)
Example scenario_three_targets :
  map (fun r => (target_name r, latency_ms r, packet_loss r, status r))
      (ping_all_targets Demo.float "linux" Demo.exec3 Demo.cfg3 ∅).1.1
  = [ ("A", Some (23 # 2), 0%Q, "success");
      ("B", Some (23 # 2), 0%Q, "success");
      ("C", None, 100%Q, "timeout") ].
Proof. reflexivity. Qed.

(** X5.  The first sample of an interface, one with no entry in
    [last_measurements], has both rates at 0 whatever its counters are. *)
Lemma measure_first_sample
    (os : os_view) (gateway_name interface : string) (self : BandwidthMonitor)
    (stats : gmap string snetio) (nic : snetio) :
  net_io_counters os = Ret stats -> stats !! interface = Some nic ->
  last_measurements self !! interface = None ->
  let m := (measure os gateway_name interface self).1.1 in
  bytes_sent_rate m = 0%Q /\ bytes_recv_rate m = 0%Q.
Proof.
  intros Hs Hi Hl.
  destruct (measure_try_present os gateway_name interface self stats nic Hs Hi)
    as (a & b & E & Hr).
  rewrite Hl in Hr. destruct Hr as [-> ->].
  unfold measure. rewrite E. simpl. split; reflexivity.
Qed.

(** Thresholds 100 ms and 5 percent: a latency of 150 ms without loss
    gives exactly one [high_latency] warning. *)
Example scenario_high_latency :
  check_alerts (Demo.alerts_only (Some true) (Some 100%Q) (Some 5%Q))
               (Demo.probe (Some 150%Q) 0 "success") Demo.no_rows
  = (Ret tt,
     {| ping_results := [];
        alerts_table := [{| alert_type := "high_latency"; alert_target_name := "A";
                            message := HighLatencyDetected 150 100;
                            severity := "warning" |}] |}).
Proof. reflexivity. Qed.

(** Same thresholds: a loss of 60 percent gives exactly one critical
    [packet_loss] alert. *)
Example scenario_packet_loss :
  check_alerts (Demo.alerts_only (Some true) (Some 100%Q) (Some 5%Q))
               (Demo.probe None 60 "partial") Demo.no_rows
  = (Ret tt,
     {| ping_results := [];
        alerts_table := [{| alert_type := "packet_loss"; alert_target_name := "A";
                            message := PacketLossDetected 60 5;
                            severity := "critical" |}] |}).
Proof. reflexivity. Qed.

(** Connections 2 and 5 are broken: left alone, the broadcast attempts
    them like the others and drops them afterwards. *)
Example scenario_broadcast :
  let '(r, active, attempted) :=
    broadcast Demo.send_json Demo.quiet Demo.iteration_ends (ping_update [])
              {[ 1%positive; 2%positive; 3%positive; 5%positive ]} in
  r = Ret tt /\ active = {[ 1%positive; 3%positive ]} /\ length attempted = 4%nat.
Proof. vm_compute. repeat split; reflexivity. Qed.

(** * Further properties of the code *)

Import Reporting Admin Database.

(** ** The prober *)

(** X1.  The triple [ping] returns is of one of four kinds: a latency with
    status ['success']; no latency, a loss of 100 and status ['timeout'];
    no latency, a loss other than 100 and status ['partial']; or no
    latency, a loss of exactly 100 and status ['error']. *)
Theorem ping_status_cases
    (float : string -> option Q) (system : string)
    (exec : list string -> Z -> communicate)
    (ip : string) (count timeout : Z) :
  let '(latency, loss, st) := fst (ping float system exec ip count timeout) in
  (st = "success" /\ is_Some latency)
  \/ (st = "timeout" /\ latency = None /\ (loss == 100)%Q)
  \/ (st = "partial" /\ latency = None /\ ~ (loss == 100)%Q)
  \/ (st = "error" /\ latency = None /\ loss = 100%Q).
Proof.
  unfold ping. destruct (exec _ _) as [output| |]; simpl.
  - destruct (_parse_latency float output system) as [l|]; simpl; [left; eauto|].
    destruct (Qeq_bool _ 100) eqn:E.
    + right. left. apply Qeq_bool_iff in E. auto.
    + right. right. left. apply Qeq_bool_neq in E. auto.
  - right. left. repeat split.
  - right. right. right. auto.
Qed.

Lemma ping_target_cache
    (float : string -> option Q) (system : string)
    (exec : list string -> Z -> communicate)
    (name ip : string) (lr : gmap string PingResult) :
  let '(r, lr', _) := ping_target float system exec name ip lr in
  lr' !! name = Some r
  /\ forall other, other <> name -> lr' !! other = lr !! other.
Proof.
  unfold ping_target.
  destruct (ping float system exec ip 3 2) as [[[latency loss] st] effs].
  split; [apply lookup_insert_eq|].
  intros other Hne. apply lookup_insert_ne. congruence.
Qed.

(** X2.  [ping_target] stores the result it returns under the target's
    name and leaves the entries of all other names alone; the result
    carries the name and the address it was asked for. *)
Theorem ping_target_updates_cache
    (float : string -> option Q) (system : string)
    (exec : list string -> Z -> communicate)
    (name ip : string) (lr : gmap string PingResult) :
  let '(r, lr', _) := ping_target float system exec name ip lr in
  lr' !! name = Some r
  /\ (forall other, other <> name -> lr' !! other = lr !! other)
  /\ target_name r = name /\ target_ip r = ip.
Proof.
  pose proof (ping_target_cache float system exec name ip lr) as H.
  pose proof (ping_target_fields float system exec name ip lr) as F.
  destruct (ping_target float system exec name ip lr) as [[r lr'] effs].
  simpl in F. tauto.
Qed.

Section CycleFacts.

Variable float : string -> option Q.
Variable system : string.
Variable exec : list string -> Z -> communicate.

Lemma exec_cmds_app (e1 e2 : list effect) :
  exec_cmds (e1 ++ e2) = exec_cmds e1 ++ exec_cmds e2.
Proof.
  induction e1 as [|[cmd d|d] e1 IH]; simpl; [reflexivity| |exact IH].
  now rewrite IH.
Qed.

Lemma ping_target_cmds (name ip : string) (lr : gmap string PingResult) :
  exec_cmds (ping_target float system exec name ip lr).2 = [ping_cmd system ip 3 2].
Proof.
  unfold ping_target, ping.
  destruct (exec _ _) as [output| |]; simpl; try reflexivity.
  destruct (_parse_latency float output system); simpl; try reflexivity.
  destruct (Qeq_bool _ _); reflexivity.
Qed.

Lemma gather_cache (tasks : list target) (lr : gmap string PingResult) :
  let '(results, lr', _) := gather float system exec tasks lr in
  (forall n, In n (map tgt_name tasks) ->
     exists r, lr' !! n = Some r /\ In r results /\ target_name r = n)
  /\ (forall n, ~ In n (map tgt_name tasks) -> lr' !! n = lr !! n).
Proof.
  revert lr. induction tasks as [|t rest IH]; intros lr; simpl.
  - split; [intros n []|reflexivity].
  - pose proof (ping_target_cache float system exec
                  (tgt_name t) (tgt_ip t) lr) as Hu.
    pose proof (ping_target_fields float system exec (tgt_name t) (tgt_ip t) lr)
      as Hf.
    destruct (ping_target float system exec (tgt_name t) (tgt_ip t) lr)
      as [[r lr1] e1].
    simpl in Hf. destruct Hu as [Hname Hother]. destruct Hf as (Hn & _).
    specialize (IH lr1).
    destruct (gather float system exec rest lr1) as [[rs lr2] e2].
    destruct IH as (IHin & IHout).
    split.
    + intros n Hin.
      destruct (in_dec string_dec n (map tgt_name rest)) as [Hrest|Hrest].
      * destruct (IHin n Hrest) as (r' & Hl & Hi & Hn').
        exists r'. simpl. auto.
      * destruct Hin as [<-|Hin]; [|contradiction].
        exists r. rewrite (IHout _ Hrest). simpl. auto.
    + intros n Hnot. rewrite IHout by tauto. apply Hother.
      intros ->. tauto.
Qed.

End CycleFacts.

(** X3.  A ping cycle launches exactly one [ping] subprocess per selected
    target, in the order of the target list, with the default count 3 and
    time-out 2; targets that are disabled or not of type ['ping'] are never
    probed. *)
Theorem ping_cycle_launches_one_probe_per_selected_target
    (float : string -> option Q) (system : string)
    (exec : list string -> Z -> communicate)
    (cfg : config) (lr : gmap string PingResult) :
  exec_cmds (ping_all_targets float system exec cfg lr).2
  = map (fun t => ping_cmd system (tgt_ip t) 3 2)
        (List.filter selected (default [] (targets cfg))).
Proof.
  unfold ping_all_targets.
  generalize (List.filter selected (default [] (targets cfg))). intros tasks.
  revert lr. induction tasks as [|t rest IH]; intros lr; simpl; [reflexivity|].
  pose proof (ping_target_cmds float system exec (tgt_name t) (tgt_ip t) lr) as Hc.
  destruct (ping_target float system exec (tgt_name t) (tgt_ip t) lr)
    as [[r lr1] e1].
  specialize (IH lr1).
  destruct (gather float system exec rest lr1) as [[rs lr2] e2].
  simpl in *. now rewrite exec_cmds_app, Hc, IH.
Qed.

(** X4.  After a ping cycle the cache [last_results] holds, under the name
    of every selected target, a result of this cycle that carries that
    name; the entries of all other names are as before. *)
Theorem ping_cycle_refreshes_cache
    (float : string -> option Q) (system : string)
    (exec : list string -> Z -> communicate)
    (cfg : config) (lr : gmap string PingResult) :
  let names := map tgt_name (List.filter selected (default [] (targets cfg))) in
  let '(results, lr', _) := ping_all_targets float system exec cfg lr in
  (forall n, In n names ->
     exists r, lr' !! n = Some r /\ In r results /\ target_name r = n)
  /\ (forall n, ~ In n names -> lr' !! n = lr !! n).
Proof. unfold ping_all_targets. simpl. apply gather_cache. Qed.

(** ** The rate sampler *)

(** The first sample of [wlan0]. *)
Lemma measure_first_sample_witness :
  let os := {| net_io_counters :=
                 Ret {[ "wlan0" := {| io_bytes_sent := 1000; io_bytes_recv := 2000 |} ]};
               net_io_counters_again := Ret ∅; time_time := 100 |} in
  let self := {| last_measurements := ∅; current_rates := ∅ |} in
  bytes_sent_rate (measure os "wifi" "wlan0" self).1.1 = 0%Q
  /\ bytes_recv_rate (measure os "wifi" "wlan0" self).1.1 = 0%Q.
Proof.
  intros os self.
  exact (measure_first_sample os "wifi" "wlan0" self
           {[ "wlan0" := {| io_bytes_sent := 1000; io_bytes_recv := 2000 |} ]}
           {| io_bytes_sent := 1000; io_bytes_recv := 2000 |}
           eq_refl eq_refl eq_refl).
Defined.

Lemma max0_of_nonpos (x : Q) : (x <= 0)%Q -> max0 x = 0%Q.
Proof. intros H. unfold max0. apply Qgtb_false in H. now rewrite H. Qed.

Lemma Qdiv_nonpos (a : Z) (b : Q) : (a <= 0)%Z -> (0 < b)%Q -> (inject_Z a / b <= 0)%Q.
Proof.
  intros Ha Hb. apply Qle_shift_div_r; [exact Hb|].
  rewrite Qmult_0_l. unfold Qle. simpl. lia.
Qed.

(** X6.  A counter that did not grow since the cached sample (a counter
    reset, for one) gives the rate 0 in its direction, whatever the clock
    did; the other direction is computed on its own. *)
Theorem measure_counter_reset
    (os : os_view) (gateway_name interface : string) (self : BandwidthMonitor)
    (stats : gmap string snetio) (nic : snetio) (last_sent last_recv : Z) (last_time : Q) :
  net_io_counters os = Ret stats -> stats !! interface = Some nic ->
  last_measurements self !! interface = Some (last_sent, last_recv, last_time) ->
  let m := (measure os gateway_name interface self).1.1 in
  ((io_bytes_sent nic <= last_sent)%Z -> bytes_sent_rate m = 0%Q)
  /\ ((io_bytes_recv nic <= last_recv)%Z -> bytes_recv_rate m = 0%Q).
Proof.
  intros Hs Hi Hl m.
  destruct (measure_try_present os gateway_name interface self stats nic Hs Hi)
    as (a & b & E & Hr).
  rewrite Hl in Hr. unfold m, measure. rewrite E. simpl.
  destruct (Qgtb (time_time os - last_time) 0) eqn:Ht.
  - destruct Hr as [-> ->]. apply Qgtb_true in Ht.
    split; intros H; apply max0_of_nonpos; apply Qdiv_nonpos; (lia || assumption).
  - destruct Hr as [-> ->]. split; reflexivity.
Qed.

(** The sent counter restarted from 40; the received counter grew by 500
    in 5 seconds. *)
Lemma measure_counter_reset_witness :
  let os := {| net_io_counters :=
                 Ret {[ "eth0" := {| io_bytes_sent := 40; io_bytes_recv := 2500 |} ]};
               net_io_counters_again := Ret ∅; time_time := 105 |} in
  let self := {| last_measurements := {[ "eth0" := (1000%Z, 2000%Z, 100%Q) ]};
                 current_rates := ∅ |} in
  bytes_sent_rate (measure os "wan" "eth0" self).1.1 = 0%Q.
Proof.
  intros os self.
  apply (measure_counter_reset os "wan" "eth0" self
           {[ "eth0" := {| io_bytes_sent := 40; io_bytes_recv := 2500 |} ]}
           {| io_bytes_sent := 40; io_bytes_recv := 2500 |} 1000 2000 100
           eq_refl eq_refl eq_refl).
  simpl. lia.
Defined.

(** X7.  When [psutil] fails, at the first read or at the read behind the
    missing-interface message, [measure] does not raise: it returns the
    all-zero sample, prints one diagnostic and leaves both caches
    untouched. *)
Theorem measure_absorbs_psutil_failure
    (os : os_view) (gateway_name interface : string) (self : BandwidthMonitor) :
  (exists e, net_io_counters os = Raise e)
  \/ (exists stats e, net_io_counters os = Ret stats /\ stats !! interface = None
                      /\ net_io_counters_again os = Raise e) ->
  measure os gateway_name interface self
  = (zero_measurement gateway_name interface, self, [Print (BandwidthError interface)]).
Proof.
  intros [[e He]|(stats & e & Hs & Hi & Ha)]; unfold measure, measure_try.
  - now rewrite He.
  - rewrite Hs. simpl. rewrite Hi, Ha. reflexivity.
Qed.

Lemma measure_absorbs_psutil_failure_witness :
  let os := {| net_io_counters := Raise OtherError;
               net_io_counters_again := Ret ∅; time_time := 100 |} in
  let self := {| last_measurements := {[ "eth0" := (1000%Z, 2000%Z, 100%Q) ]};
                 current_rates := ∅ |} in
  measure os "wan" "eth0" self
  = (zero_measurement "wan" "eth0", self, [Print (BandwidthError "eth0")]).
Proof.
  intros os self.
  apply (measure_absorbs_psutil_failure os "wan" "eth0" self).
  left. exists OtherError. reflexivity.
Defined.

(** X8.  On every path the sample [measure] returns names the gateway
    and the interface it was asked for, and the call touches no cache entry
    but its own: [last_measurements] of other interfaces and
    [current_rates] of other gateways are as before. *)
Theorem measure_touches_only_its_entries
    (os : os_view) (gateway_name interface : string) (self : BandwidthMonitor) :
  let '(m, self', _) := measure os gateway_name interface self in
  Monitor.gateway_name m = gateway_name /\ Monitor.interface m = interface
  /\ (forall i, i <> interface ->
        last_measurements self' !! i = last_measurements self !! i)
  /\ (forall g, g <> gateway_name ->
        current_rates self' !! g = current_rates self !! g).
Proof.
  unfold measure, measure_try.
  destruct (net_io_counters os) as [stats|e]; simpl; [|auto].
  destruct (stats !! interface) as [nic|]; simpl.
  - destruct (last_measurements self !! interface) as [[[ls lr] lt]|]; simpl.
    + destruct (Qgtb (time_time os - lt) 0) eqn:E; simpl.
      * rewrite !truediv_pos by exact E. simpl.
        repeat split; intros x Hx; apply lookup_insert_ne; congruence.
      * repeat split; intros x Hx; apply lookup_insert_ne; congruence.
    + repeat split; intros x Hx; apply lookup_insert_ne; congruence.
  - destruct (get_available_interfaces _); simpl; auto.
Qed.

Lemma measure_echo
    (os : os_view) (gateway_name interface : string) (self : BandwidthMonitor) :
  let m := (measure os gateway_name interface self).1.1 in
  Monitor.gateway_name m = gateway_name /\ Monitor.interface m = interface
  /\ rates_nonneg m.
Proof.
  intros m.
  pose proof (measure_shape os gateway_name interface self) as (a & b & Ha & Hb).
  fold m in Ha, Hb. unfold rates_nonneg. rewrite Ha, Hb.
  assert (Hn : Monitor.gateway_name m = gateway_name
               /\ Monitor.interface m = interface).
  { unfold m, measure, measure_try.
    destruct (net_io_counters os) as [stats|e]; simpl; [|auto].
    destruct (stats !! interface) as [nic|]; simpl.
    - destruct (last_measurements self !! interface) as [[[ls lr] lt]|]; simpl;
        [|auto].
      destruct (Qgtb (time_time os - lt) 0) eqn:E; simpl; [|auto].
      rewrite !truediv_pos by exact E. simpl. auto.
    - destruct (get_available_interfaces _); simpl; auto. }
  destruct Hn. repeat split; auto using max0_nonneg.
Qed.

Lemma measure_each_spec (os : nat -> os_view) (n : nat) (gws : list gateway)
    (self : BandwidthMonitor) :
  let ms := (measure_each os n gws self).1.1 in
  map (fun m => (gateway_name m, interface m)) ms
  = map (fun g => (gw_name g, gw_interface g)) (List.filter gateway_enabled gws)
  /\ Forall rates_nonneg ms.
Proof.
  revert n self. induction gws as [|g rest IH]; intros n self; simpl.
  - split; [reflexivity|constructor].
  - unfold gateway_enabled at 1. destruct (default true (gw_enabled g)); simpl.
    + pose proof (measure_echo (os n) (gw_name g) (gw_interface g) self) as H.
      destruct (measure (os n) (gw_name g) (gw_interface g) self) as [[m self1] e1].
      specialize (IH (S n) self1).
      destruct (measure_each os (S n) rest self1) as [[ms self2] e2].
      simpl in *. destruct H as (Hg & Hi & Hr). destruct IH as [IHm IHr].
      split; [now rewrite Hg, Hi, IHm | now constructor].
    + apply IH.
Qed.

(** X9.  [measure_all_bandwidth] returns one sample per enabled gateway,
    in the order of the gateway list, each naming its gateway and
    interface, whatever the counters and the clock do; disabled gateways
    are skipped; and no sample carries a negative rate. *)
Theorem bandwidth_cycle_one_sample_per_enabled_gateway
    (os : nat -> os_view) (cfg : config) (self : BandwidthMonitor) :
  let ms := (measure_all_bandwidth os cfg self).1.1 in
  map (fun m => (gateway_name m, interface m)) ms
  = map (fun g => (gw_name g, gw_interface g))
        (List.filter gateway_enabled (default [] (gateways cfg)))
  /\ Forall rates_nonneg ms.
Proof. unfold measure_all_bandwidth. apply measure_each_spec. Qed.

(** ** Reporting *)

Lemma Qabs_div_1024 (v : Q) : (1024 <= Qabs v)%Q -> (1 <= Qabs (v / 1024))%Q.
Proof.
  intros H. unfold Qdiv. rewrite Qabs_Qmult.
  rewrite (Qabs_pos (/ 1024)) by (unfold Qle; simpl; lia).
  apply Qle_shift_div_l; [reflexivity|]. now rewrite Qmult_1_l.
Qed.

Lemma scale_spec (us : list string) (v : Q) :
  let '(x, unit) := scale us v in
  exists k : nat,
    (k <= length us)%nat
    /\ nth_error (us ++ ["PB"]) k = Some unit
    /\ (x * unit_factor k == v)%Q
    /\ ((k < length us)%nat -> (Qabs x < 1024)%Q)
    /\ ((0 < k)%nat -> (1 <= Qabs x)%Q).
Proof.
  revert v. induction us as [|u rest IH]; intros v; simpl.
  - exists 0%nat. simpl. repeat split; try lia. apply Qmult_1_r.
  - destruct (Qgtb 1024 (Qabs v)) eqn:E.
    + exists 0%nat. simpl. repeat split; try lia.
      * apply Qmult_1_r.
      * intros _. now apply Qgtb_true.
    + apply Qgtb_false in E. specialize (IH (v / 1024)%Q).
      destruct (scale rest (v / 1024)) as [x unit].
      destruct IH as (k & Hk & Hn & Hx & Hlt & Hge).
      exists (S k). simpl. repeat split; try lia.
      * exact Hn.
      * rewrite (Qmult_comm 1024), Qmult_assoc, Hx. field.
      * intros H. apply Hlt. lia.
      * intros _. destruct k as [|k']; [|apply Hge; lia].
        simpl in Hx. rewrite Qmult_1_r in Hx. rewrite Hx.
        now apply Qabs_div_1024.
Qed.

(** X10.  [format_bytes] prints a number [x] and a unit of rank [k] (B, KB,
    MB, GB, TB, PB) with [x * 1024^k] equal to the input; [x] is below 1024
    in absolute value unless the unit is PB, and at least 1 unless the unit
    is B. *)
Theorem format_bytes_scaling (fmt2 : Q -> string) (v : Q) :
  exists (k : nat) (x : Q) (unit : string),
    format_bytes fmt2 v = (fmt2 x ++ " " ++ unit)%string
    /\ format_bytes_rate fmt2 v = ((fmt2 x ++ " " ++ unit) ++ "/s")%string
    /\ nth_error ["B"; "KB"; "MB"; "GB"; "TB"; "PB"] k = Some unit
    /\ (x * unit_factor k == v)%Q
    /\ (unit <> "PB" -> (Qabs x < 1024)%Q)
    /\ (unit <> "B" -> (1 <= Qabs x)%Q).
Proof.
  unfold format_bytes_rate, format_bytes.
  pose proof (scale_spec units v) as H.
  destruct (scale units v) as [x unit].
  destruct H as (k & Hk & Hn & Hx & Hlt & Hge).
  exists k, x, unit. repeat split; try assumption.
  - intros Hu. apply Hlt. simpl in *.
    destruct (decide (k = 5%nat)) as [->|]; [|lia].
    simpl in Hn. congruence.
  - intros Hu. apply Hge. destruct k as [|k']; [|lia].
    simpl in Hn. congruence.
Qed.

Section StatusFacts.

Variable float : string -> option Q.
Variable system : string.
Variable exec : list string -> Z -> communicate.

Lemma gather_result_invariants (tasks : list target) (lr : gmap string PingResult) :
  Forall (fun r => known_status (status r)
                   /\ (is_Some (latency_ms r) <-> status r = "success"))
         (gather float system exec tasks lr).1.1.
Proof.
  rewrite gather_results. induction tasks as [|t rest IH]; simpl; constructor.
  - pose proof (ping_target_fields float system exec (tgt_name t) (tgt_ip t) ∅) as H.
    simpl in H. tauto.
  - exact IH.
Qed.

End StatusFacts.

(** X11.  After a ping cycle the status report has, for every selected
    target, an entry under its name with one of the four status values and
    a latency exactly when that status is ['success']; and since
    [get_current_status] reads [psutil] outside any [try], a failure there
    makes the whole query fail. *)
Theorem status_report_after_cycle
    (float : string -> option Q) (system : string)
    (exec : list string -> Z -> communicate)
    (cfg : config) (nm : NetworkMonitor) (stats : gmap string snetio) :
  let '(results, lr', _) :=
    ping_all_targets float system exec cfg (ping_monitor nm) in
  let nm' := {| ping_monitor := lr'; bandwidth_monitor := bandwidth_monitor nm |} in
  (exists rep,
     get_current_status (Ret stats) nm' = Ret rep
     /\ forall t, In t (List.filter selected (default [] (targets cfg))) ->
          exists ip latency loss st,
            st_ping_results rep !! tgt_name t = Some (ip, latency, loss, st)
            /\ known_status st /\ (is_Some latency <-> st = "success"))
  /\ forall e, get_current_status (Raise e) nm' = Raise e.
Proof.
  unfold ping_all_targets.
  pose proof (gather_cache float system exec
                (List.filter selected (default [] (targets cfg))) (ping_monitor nm)) as Hc.
  pose proof (gather_result_invariants float system exec
                (List.filter selected (default [] (targets cfg))) (ping_monitor nm)) as Hi.
  destruct (gather float system exec _ _) as [[results lr'] effs].
  simpl in Hi. destruct Hc as [Hin _]. split; [|reflexivity].
  eexists. split; [reflexivity|]. simpl.
  intros t Ht.
  destruct (Hin (tgt_name t)) as (r & Hl & Hr & Hn); [now apply in_map|].
  exists (target_ip r), (latency_ms r), (packet_loss r), (status r).
  rewrite lookup_fmap, Hl. split; [reflexivity|].
  rewrite Forall_forall in Hi. apply Hi. now apply list_elem_of_In.
Qed.

(** ** Tasks *)

Lemma check_alerts_keeps_ping_rows (cfg : config) (result : PingResult) (d : database) :
  ping_results (check_alerts cfg result d).2 = ping_results d.
Proof.
  unfold check_alerts. destruct (default false _); [|reflexivity].
  destruct (latency_ms result) as [l|]; simpl;
    [destruct (Qnonzero l && Qgtb l _)%bool; simpl;
       [destruct (ping_threshold_ms _); simpl; [|reflexivity]|]|];
    (destruct (Qgtb (packet_loss result) _); simpl;
       [destruct (packet_loss_threshold_percent _); reflexivity|reflexivity]).
Qed.

(** X12.  Evaluating the alerts of one result only ever appends to the
    alerts table: the ping rows and the alerts already stored are kept, at
    most two alerts are added, and each names the target of the result. *)
Theorem check_alerts_appends (cfg : config) (result : PingResult) (d : database) :
  let d' := (check_alerts cfg result d).2 in
  ping_results d' = ping_results d
  /\ exists new, alerts_table d' = alerts_table d ++ new
                 /\ (length new <= 2)%nat
                 /\ Forall (fun al => alert_target_name al = target_name result) new.
Proof.
  unfold check_alerts.
  destruct (default false _); simpl;
    [|split; [reflexivity|exists []; rewrite app_nil_r; repeat split; auto]].
  assert (H0 : exists new : list alert,
             alerts_table d = alerts_table d ++ new /\ (length new <= 2)%nat
             /\ Forall (fun al => alert_target_name al = target_name result) new)
    by (exists []; rewrite app_nil_r; repeat split; auto).
  assert (Hloss : forall d1 : database,
             ping_results d1 = ping_results d ->
             (exists new, alerts_table d1 = alerts_table d ++ new
                          /\ (length new <= 1)%nat
                          /\ Forall (fun al => alert_target_name al = target_name result) new) ->
             let d' := (if Qgtb (packet_loss result)
                               (default 5%Q (packet_loss_threshold_percent
                                               (default no_alerts_config (alerts cfg))))
                        then match packet_loss_threshold_percent
                                     (default no_alerts_config (alerts cfg)) with
                             | Some threshold =>
                                 (Ret tt, save_alert "packet_loss" (target_name result)
                                            (PacketLossDetected (packet_loss result) threshold)
                                            (if Qgtb (packet_loss result) 50
                                             then "critical" else "warning") d1)
                             | None => (Raise (KeyError "packet_loss_threshold_percent"), d1)
                             end
                        else (Ret tt, d1)).2 in
             ping_results d' = ping_results d
             /\ exists new, alerts_table d' = alerts_table d ++ new
                            /\ (length new <= 2)%nat
                            /\ Forall (fun al => alert_target_name al = target_name result) new).
  { intros d1 Hp (new & Ha & Hl & Hf).
    destruct (Qgtb (packet_loss result) _); simpl;
      [|split; [exact Hp|exists new; repeat split; auto; lia]].
    destruct (packet_loss_threshold_percent _); simpl;
      [|split; [exact Hp|exists new; repeat split; auto; lia]].
    split; [exact Hp|]. eexists (new ++ [_]). rewrite Ha, <- app_assoc.
    split; [reflexivity|]. rewrite length_app. simpl. split; [lia|].
    apply Forall_app. split; [exact Hf|]. constructor; [reflexivity|constructor]. }
  destruct (latency_ms result) as [l|]; simpl.
  - destruct (Qnonzero l && Qgtb l _)%bool; simpl.
    + destruct (ping_threshold_ms _); simpl.
      * apply Hloss; [reflexivity|]. eexists [_]. simpl.
        split; [reflexivity|]. split; [lia|]. constructor; [reflexivity|constructor].
      * split; [reflexivity|exact H0].
    + apply Hloss; [reflexivity|]. exists []. rewrite app_nil_r. repeat split; auto.
  - apply Hloss; [reflexivity|]. exists []. rewrite app_nil_r. repeat split; auto.
Qed.

(** X13.  The loop of [ping_task] saves the results in order.  When it
    completes, exactly the results of the cycle have been appended to the
    ping rows; when the alert message of one result fails, the rows up to
    and including that result have been saved and the later results have
    not. *)
Theorem process_results_saves_in_order
    (cfg : config) (results : list PingResult) (d : database) :
  let '(r, d') := process_results cfg results d in
  match r with
  | Ret _ => ping_results d' = ping_results d ++ results
  | Raise _ =>
      exists done failing rest,
        results = done ++ failing :: rest
        /\ ping_results d' = ping_results d ++ done ++ [failing]
  end.
Proof.
  revert d. induction results as [|x rest IH]; intros d; simpl.
  - now rewrite app_nil_r.
  - pose proof (check_alerts_keeps_ping_rows cfg x (save_ping_result x d)) as Hp.
    destruct (check_alerts cfg x (save_ping_result x d)) as [[u|e] d1]; simpl in Hp.
    + specialize (IH d1). destruct (process_results cfg rest d1) as [[u'|e'] d2].
      * rewrite IH, Hp. simpl. now rewrite <- app_assoc.
      * destruct IH as (done & failing & rest' & -> & Hd).
        exists (x :: done), failing, rest'. split; [reflexivity|].
        rewrite Hd, Hp. simpl. now rewrite <- !app_assoc.
    + exists [], x, rest. split; [reflexivity|]. exact Hp.
Qed.



(** ** The connection manager *)

(** X15.  As long as no other task touches the set of connections while
    the sends are awaited, [broadcast] returns, has attempted every
    connection of the set in iteration order, and leaves exactly the
    connections whose send returned; pruning is then stable: broadcasting
    again to the survivors, with the same outcome per connection, removes
    nothing and attempts exactly the survivors. *)
Theorem broadcast_again_removes_nothing
    (send_json : WebSocket -> envelope -> res unit)
    (meanwhile : WebSocket -> gset WebSocket -> gset WebSocket)
    (unspecified : gset WebSocket -> gset WebSocket -> list WebSocket
                   -> res unit * gset WebSocket * list WebSocket)
    (msg : envelope) (active : gset WebSocket) :
  undisturbed meanwhile ->
  exists survivors,
    broadcast send_json meanwhile unspecified msg active
    = (Ret tt, survivors, elements active)
    /\ (forall c, c ∈ survivors <-> c ∈ active /\ exists u, send_json c msg = Ret u)
    /\ broadcast send_json meanwhile unspecified msg survivors
       = (Ret tt, survivors, elements survivors).
Proof.
  intros Hq.
  destruct (broadcast_undisturbed send_json meanwhile unspecified msg active Hq)
    as (survivors & Hb & Hs).
  exists survivors. split; [exact Hb|]. split; [exact Hs|].
  destruct (broadcast_undisturbed send_json meanwhile unspecified msg survivors Hq)
    as (again & -> & Ha).
  f_equal. f_equal. apply set_eq. intros c. rewrite Ha, Hs. tauto.
Qed.

(** Connections 2 and 5 are broken; the first broadcast leaves 1 and 3,
    the second attempts those two and keeps them. *)
Lemma broadcast_again_removes_nothing_witness :
  exists survivors,
    broadcast Demo.send_json Demo.quiet Demo.iteration_ends (ping_update [])
              {[ 1%positive; 2%positive; 3%positive; 5%positive ]}
    = (Ret tt, survivors,
       elements ({[ 1%positive; 2%positive; 3%positive; 5%positive ]} : gset WebSocket))
    /\ (forall c, c ∈ survivors
                  <-> c ∈ ({[ 1%positive; 2%positive; 3%positive; 5%positive ]}
                           : gset WebSocket)
                      /\ exists u, Demo.send_json c (ping_update []) = Ret u)
    /\ broadcast Demo.send_json Demo.quiet Demo.iteration_ends (ping_update [])
                 survivors
       = (Ret tt, survivors, elements survivors).
Proof.
  apply (broadcast_again_removes_nothing
           Demo.send_json Demo.quiet Demo.iteration_ends (ping_update [])
           {[ 1%positive; 2%positive; 3%positive; 5%positive ]}).
  intros c s. reflexivity.
Defined.

(** X16.  [disconnect] removes the given socket and nothing else, is
    idempotent, and does nothing for a socket that is not connected;
    [connect] followed by [disconnect] of a socket that was not connected
    gives the set back, and a failing [accept] adds nothing. *)
Theorem disconnect_idempotent (websocket : WebSocket) (active : gset WebSocket) :
  disconnect websocket (disconnect websocket active) = disconnect websocket active
  /\ (websocket ∉ disconnect websocket active)
  /\ (forall c, c <> websocket -> (c ∈ disconnect websocket active <-> c ∈ active))
  /\ (websocket ∉ active ->
      disconnect websocket active = active
      /\ disconnect websocket (connect (Ret tt) websocket active).2 = active)
  /\ (forall e, connect (Raise e) websocket active = (Raise e, active)).
Proof.
  unfold disconnect, connect. simpl.
  split; [apply set_eq; intros c; rewrite !elem_of_difference; tauto|].
  split; [rewrite elem_of_difference, elem_of_singleton; tauto|].
  split.
  { intros c Hc. rewrite elem_of_difference, elem_of_singleton. tauto. }
  split; [|reflexivity].
  intros Hn. split; apply set_eq; intros c;
    rewrite ?elem_of_difference, ?elem_of_union, ?elem_of_singleton.
  - split; [tauto|]. intros Hc. split; [exact Hc|]. intros ->. contradiction.
  - split; [tauto|]. intros Hc. split; [auto|]. intros ->. contradiction.
Qed.

Section BandwidthTaskFacts.

Variable storing_bandwidth : BandwidthMeasurement -> res unit.

(** The saving loop appends a prefix of the samples, all of them when it
    returns. *)
Lemma save_measurements_spec (measurements rows : list BandwidthMeasurement) :
  let '(r, rows') := save_measurements storing_bandwidth measurements rows in
  match r with
  | Ret _ => rows' = rows ++ measurements
  | Raise _ =>
      exists done failing rest,
        measurements = done ++ failing :: rest /\ rows' = rows ++ done
        /\ storing_bandwidth failing = r
  end.
Proof.
  revert rows. induction measurements as [|m rest IH]; intros rows; simpl.
  - now rewrite app_nil_r.
  - destruct (storing_bandwidth m) as [u|e] eqn:E.
    + specialize (IH (rows ++ [m])).
      destruct (save_measurements storing_bandwidth rest (rows ++ [m])) as [[u'|e'] rows'].
      * now rewrite IH, <- app_assoc.
      * destruct IH as (done & failing & rest' & -> & -> & Hf).
        exists (m :: done), failing, rest'. rewrite <- app_assoc. auto.
    + exists [], m, rest. rewrite app_nil_r. auto.
Qed.

Lemma save_measurements_stores (measurements rows : list BandwidthMeasurement) :
  always_stores storing_bandwidth ->
  save_measurements storing_bandwidth measurements rows
  = (Ret tt, rows ++ measurements).
Proof.
  intros Hs. revert rows. induction measurements as [|m rest IH]; intros rows; simpl.
  - now rewrite app_nil_r.
  - now rewrite Hs, IH, <- app_assoc.
Qed.

End BandwidthTaskFacts.

(** X17.  With a monitor, a database that takes every row and
    connections left alone during the broadcast, [bandwidth_task]
    returns; it has appended the samples of the cycle, in order, to the
    bandwidth rows and never a negative rate, left the configuration and
    the ping and alert tables alone, and broadcast one [bandwidth_update]
    carrying those samples to every connection.  When a save raises, the
    task raises the same exception, the rows saved before stay, and
    nothing is broadcast.  Without a monitor it does nothing. *)
Theorem bandwidth_task_saves_and_broadcasts
    (send_json : WebSocket -> envelope -> res unit)
    (meanwhile : WebSocket -> gset WebSocket -> gset WebSocket)
    (unspecified : gset WebSocket -> gset WebSocket -> list WebSocket
                   -> res unit * gset WebSocket * list WebSocket)
    (storing_bandwidth : BandwidthMeasurement -> res unit)
    (os : nat -> os_view) (a : app) (rows : list BandwidthMeasurement) :
  let '(r, a', rows') :=
    bandwidth_task send_json meanwhile unspecified storing_bandwidth os a rows in
  app_config a' = app_config a /\ db a' = db a
  /\ match network_monitor a with
     | None => r = Ret tt /\ a' = a /\ rows' = rows
     | Some nm =>
         let ms := (measure_all_bandwidth os (app_config a) (bandwidth_monitor nm)).1.1 in
         Forall rates_nonneg ms
         /\ (always_stores storing_bandwidth -> undisturbed meanwhile ->
             r = Ret tt /\ rows' = rows ++ ms
             /\ outbox a' = outbox a ++ [(bandwidth_update ms, elements (manager a))])
         /\ (forall e, (save_measurements storing_bandwidth ms rows).1 = Raise e ->
             r = Raise e /\ outbox a' = outbox a /\ manager a' = manager a
             /\ exists done failing rest,
                  ms = done ++ failing :: rest /\ rows' = rows ++ done
                  /\ storing_bandwidth failing = Raise e)
     end.
Proof.
  unfold bandwidth_task. destruct (network_monitor a) as [nm|].
  - pose proof (measure_each_spec os 0 (default [] (gateways (app_config a)))
                  (bandwidth_monitor nm)) as [_ Hr].
    fold (measure_all_bandwidth os (app_config a) (bandwidth_monitor nm)) in Hr.
    destruct (measure_all_bandwidth os (app_config a) (bandwidth_monitor nm))
      as [[ms bm] effs].
    simpl in Hr. cbv zeta. simpl.
    pose proof (save_measurements_spec storing_bandwidth ms rows) as Hsave.
    destruct (save_measurements storing_bandwidth ms rows) as [[u|e] rows'] eqn:Es.
    + destruct (broadcast send_json meanwhile unspecified (bandwidth_update ms)
                          (manager a)) as [[sent active] attempted] eqn:Eb.
      simpl. split; [reflexivity|]. split; [reflexivity|].
      split; [exact Hr|]. split.
      * intros Hs Hq.
        destruct (broadcast_undisturbed send_json meanwhile unspecified
                    (bandwidth_update ms) (manager a) Hq) as (active' & Hb & _).
        rewrite Hb in Eb. injection Eb as <- <- <-. auto.
      * intros e. discriminate.
    + simpl. split; [reflexivity|]. split; [reflexivity|].
      split; [exact Hr|]. split.
      * intros Hs Hq. rewrite (save_measurements_stores _ _ _ Hs) in Es. discriminate.
      * intros e0 [= <-]. split; [reflexivity|]. split; [reflexivity|].
        split; [reflexivity|].
        destruct Hsave as (done & failing & rest & Hm & Hrows & Hf). eauto 10.
  - simpl. auto.
Qed.

(** One gateway: with a database that takes the row the sample is saved
    and the task returns; with a locked database the task raises and
    nothing is saved or sent. *)
Lemma bandwidth_task_saves_and_broadcasts_witness :
  (let '(r, a', rows') :=
     bandwidth_task Demo.send_json Demo.quiet Demo.iteration_ends Demo.stores
                    Samples.steady_counters
                    (Demo.idle_app Samples.cfg_one_gateway) [] in
   r = Ret tt
   /\ map (fun m => (gateway_name m, bytes_sent m, bytes_recv m)) rows'
      = [("wan", 1000%Z, 2000%Z)]
   /\ length (outbox a') = 1%nat)
  /\ (let '(r, a', rows') :=
        bandwidth_task Demo.send_json Demo.quiet Demo.iteration_ends Demo.locked
                       Samples.steady_counters
                       (Demo.idle_app Samples.cfg_one_gateway) [] in
      r = Raise OtherError /\ rows' = [] /\ outbox a' = []).
Proof.
  split.
  - pose proof (bandwidth_task_saves_and_broadcasts
                  Demo.send_json Demo.quiet Demo.iteration_ends Demo.stores
                  Samples.steady_counters
                  (Demo.idle_app Samples.cfg_one_gateway) []) as H.
    destruct (bandwidth_task Demo.send_json Demo.quiet Demo.iteration_ends Demo.stores
                Samples.steady_counters (Demo.idle_app Samples.cfg_one_gateway) [])
      as [[r a'] rows'].
    destruct H as (_ & _ & H). cbn [network_monitor Demo.idle_app] in H.
    destruct H as (_ & H & _).
    destruct H as (-> & -> & ->);
      [intros x; reflexivity | intros c s; reflexivity |].
    split; [reflexivity|]. split; vm_compute; reflexivity.
  - pose proof (bandwidth_task_saves_and_broadcasts
                  Demo.send_json Demo.quiet Demo.iteration_ends Demo.locked
                  Samples.steady_counters
                  (Demo.idle_app Samples.cfg_one_gateway) []) as H.
    destruct (bandwidth_task Demo.send_json Demo.quiet Demo.iteration_ends Demo.locked
                Samples.steady_counters (Demo.idle_app Samples.cfg_one_gateway) [])
      as [[r a'] rows'].
    destruct H as (_ & _ & H). cbn [network_monitor Demo.idle_app] in H.
    destruct H as (_ & _ & H).
    destruct (H OtherError) as (-> & -> & _ & done & failing & rest & Hm & -> & _);
      [vm_compute; reflexivity|].
    split; [reflexivity|]. split; [|reflexivity].
    destruct done as [|m done]; [reflexivity|].
    apply (f_equal (@length _)) in Hm. rewrite length_app in Hm.
    match type of Hm with
    | ?l = _ => assert (Hl : l = 1%nat) by (vm_compute; reflexivity); rewrite Hl in Hm
    end.
    simpl in Hm. lia.
Defined.

(** ** Target administration, continued *)

Lemma filter_keeps_all {A} (f : A -> bool) (l : list A) :
  Forall (fun x => f x = true) l -> List.filter f l = l.
Proof.
  induction 1 as [|x l Hx _ IH]; simpl; [reflexivity|]. now rewrite Hx, IH.
Qed.



Section NameFacts.

Variable str_lower : string -> string.



End NameFacts.






(** X20.  Adding a target that duplicates none and then deleting it by
    its name, in any spelling [str.lower] folds to the same string,
    restores the target list, however the ping cycle of the addition
    ended. *)
Theorem add_then_delete_restores_targets
    (float : string -> option Q) (system : string)
    (exec : list string -> Z -> communicate)
    (send_json : WebSocket -> envelope -> res unit)
    (meanwhile : WebSocket -> gset WebSocket -> gset WebSocket)
    (unspecified : gset WebSocket -> gset WebSocket -> list WebSocket
                   -> res unit * gset WebSocket * list WebSocket)
    (storing_ping : PingResult -> res unit) (storing_alert : alert -> res unit)
    (str_lower : string -> string)
    (target : TargetCreate) (spelling : string) (a : app) (ts : list Monitor.target) :
  targets (app_config a) = Some ts ->
  Forall (fun t => ~ duplicates str_lower target t) ts ->
  str_lower spelling = str_lower (name target) ->
  let a1 := (add_target float system exec send_json meanwhile unspecified
                        storing_ping storing_alert str_lower target a).2 in
  let '(r, a2) := delete_target str_lower spelling a1 in
  r = Ret (Deleted spelling) /\ targets (app_config a2) = Some ts.
Proof.
  intros Hts Hfresh Hsp a1.
  assert (Ha1 : targets (app_config a1) = Some (ts ++ [new_target_of target])).
  { unfold a1, add_target. rewrite Hts. simpl.
    rewrite (first_duplicate_none str_lower target ts Hfresh).
    fold (new_target_of target).
    pose proof (ping_task_config float system exec send_json meanwhile unspecified
                  storing_ping storing_alert
                  (with_targets (ts ++ [new_target_of target]) a)) as [Hc _].
    destruct (ping_task float system exec send_json meanwhile unspecified
                storing_ping storing_alert
                (with_targets (ts ++ [new_target_of target]) a)) as [[u|e] a'];
      simpl in *; now rewrite Hc. }
  unfold delete_target. rewrite Ha1. simpl.
  rewrite List.filter_app. simpl. rewrite Hsp, String.eqb_refl. simpl.
  rewrite app_nil_r, (filter_keeps_all _ ts).
  - rewrite length_app. simpl.
    destruct (Nat.eqb_spec (length ts) (length ts + 1)) as [E|_]; [lia|].
    simpl. split; reflexivity.
  - eapply Forall_impl; [exact Hfresh|]. intros t Ht.
    apply negb_true_iff, String.eqb_neq. intros E. apply Ht. now left.
Qed.

Lemma add_then_delete_restores_targets_witness :
  targets (app_config
     (delete_target lower "d"
        (add_target Demo.float "linux" Demo.exec3 Demo.send_json Demo.quiet
           Demo.iteration_ends Demo.stores Demo.stores lower
           {| name := "D"; ip := "10.0.0.4"; enabled := true |}
           (Demo.idle_app Demo.cfg3)).2).2)
  = targets Demo.cfg3.
Proof.
  pose proof (add_then_delete_restores_targets
                Demo.float "linux" Demo.exec3 Demo.send_json Demo.quiet
                Demo.iteration_ends Demo.stores Demo.stores lower
                {| name := "D"; ip := "10.0.0.4"; enabled := true |} "d"
                (Demo.idle_app Demo.cfg3) _ eq_refl) as H.
  cbv zeta in H.
  destruct (delete_target lower "d" _) as [r a2].
  apply H; [|reflexivity].
  repeat constructor; intros [E|E]; vm_compute in E; discriminate.
Defined.





(** ** Routing *)

(** X23.  The second [add_target] and the second [delete_target] are
    registered for a method and a path an earlier route already serves:
    no request is ever routed to them. *)
Theorem shadowed_handlers_unreachable (method path : string) :
  resolve method path <> Some ep_add_target_again
  /\ resolve method path <> Some ep_delete_target_again.
Proof.
  unfold resolve, routes. simpl.
  repeat match goal with
         | |- context [if ?b then _ else _] =>
             let E := fresh "E" in destruct b eqn:E
         end;
    split; congruence.
Qed.

Lemma split_no_separator (sep : ascii) (s : string) :
  ~ In sep (list_ascii_of_string s) -> split sep s = [s].
Proof.
  induction s as [|c r IH]; simpl; intros H; [reflexivity|].
  destruct (Ascii.eqb_spec c sep) as [->|_]; [exfalso; auto|].
  rewrite IH by auto. reflexivity.
Qed.

Lemma split_targets_path (n : string) :
  ~ In "/"%char (list_ascii_of_string n) ->
  split "/" ("/api/targets/" ++ n)%string = [""; "api"; "targets"; n].
Proof.
  intros H. simpl. change ("" +:+ n) with n.
  rewrite (split_no_separator "/" n H). reflexivity.
Qed.

(** X24.  For a target name that is not empty and holds no slash, the
    path [/api/targets/<name>] is served by the first [delete_target] for
    DELETE, by the first [update_target] for PATCH and by the second
    [update_target] for PUT. *)
Theorem target_routes (n : string) :
  n <> "" -> ~ In "/"%char (list_ascii_of_string n) ->
  resolve "DELETE" ("/api/targets/" ++ n)%string = Some ep_delete_target
  /\ resolve "PATCH" ("/api/targets/" ++ n)%string = Some ep_update_target
  /\ resolve "PUT" ("/api/targets/" ++ n)%string = Some ep_update_target_again.
Proof.
  intros Hne Hslash.
  assert (Hn : String.eqb n "" = false) by now apply String.eqb_neq.
  unfold resolve, routes, route_matches.
  cbn [first_return snd]. rewrite !(split_targets_path n Hslash).
  cbn. rewrite Hn. cbn. auto.
Qed.

Lemma target_routes_witness :
  resolve "DELETE" "/api/targets/gateway-1" = Some ep_delete_target
  /\ resolve "PATCH" "/api/targets/gateway-1" = Some ep_update_target
  /\ resolve "PUT" "/api/targets/gateway-1" = Some ep_update_target_again.
Proof.
  apply (target_routes "gateway-1").
  - discriminate.
  - vm_compute. intuition discriminate.
Defined.

(** ** Analytics and pagination *)

Section MaxFrom.

Context {A K : Type} (gt : K -> K -> bool) (le : K -> K -> Prop) (key : A -> K).
Hypothesis le_trans : forall x y z, le x y -> le y z -> le x z.
Hypothesis le_refl : forall x, le x x.
Hypothesis gt_true : forall x y, gt x y = true -> le y x /\ ~ le x y.
Hypothesis gt_false : forall x y, gt x y = false -> le x y.

(** [max_from] returns the first element whose key is maximal: the
    elements before it have strictly smaller keys, those after it keys
    that are not greater. *)
Lemma max_from_first_maximum (best : A) (l : list A) :
  let m := max_from gt key best l in
  le (key best) (key m)
  /\ exists pre post,
       best :: l = pre ++ m :: post
       /\ Forall (fun x => le (key x) (key m) /\ ~ le (key m) (key x)) pre
       /\ Forall (fun x => le (key x) (key m)) post.
Proof.
  revert best. induction l as [|x r IH]; intros best; simpl.
  - split; [apply le_refl|]. exists [], []. repeat split; constructor.
  - destruct (gt (key x) (key best)) eqn:E.
    + destruct (IH x) as (Hle & pre & post & Heq & Hpre & Hpost).
      destruct (gt_true _ _ E) as [Hbx Hxb].
      split; [eapply le_trans; eassumption|].
      exists (best :: pre), post. rewrite Heq. repeat split; auto.
      constructor; [|exact Hpre]. split; [eapply le_trans; eassumption|].
      intros H. apply Hxb. eapply le_trans; eassumption.
    + specialize (IH best). cbv zeta in IH.
      remember (max_from gt key best r) as m eqn:Em. clear Em.
      destruct IH as (Hle & pre & post & Heq & Hpre & Hpost).
      apply gt_false in E. split; [exact Hle|].
      destruct pre as [|p pre'].
      * simpl in Heq. injection Heq as Hm Hr. subst m r.
        exists [], (x :: post). simpl.
        repeat split; constructor; assumption.
      * simpl in Heq. injection Heq as Hp Hr. subst p r.
        exists (best :: x :: pre'), post. simpl.
        inversion Hpre as [|? ? [Hb1 Hb2] Hpre']; subst.
        repeat split; auto.
        constructor; [split; assumption|].
        constructor; [|exact Hpre']. split; [eapply le_trans; eassumption|].
        intros H. apply Hb2. eapply le_trans; eassumption.
Qed.

End MaxFrom.

Lemma worst_by_timeouts_first_maximum (first : hour_row) (others : list hour_row) :
  let m := max_from Z.gtb timeouts_key first others in
  exists pre post,
    first :: others = pre ++ m :: post
    /\ Forall (fun x => (timeouts_key x < timeouts_key m)%Z) pre
    /\ Forall (fun x => (timeouts_key x <= timeouts_key m)%Z) post.
Proof.
  intros m.
  destruct (max_from_first_maximum Z.gtb Z.le timeouts_key Z.le_trans Z.le_refl)
    with (best := first) (l := others) as (_ & pre & post & Heq & Hpre & Hpost).
  - intros x y H. apply Z.gtb_lt in H. lia.
  - intros x y H. destruct (Z.gtb_spec x y); [discriminate|lia].
  - exists pre, post. fold m in Heq, Hpre, Hpost. repeat split; auto.
    eapply Forall_impl; [exact Hpre|]. intros x Hx. simpl in Hx. lia.
Qed.

Lemma worst_by_latency_first_maximum (first : hour_row) (others : list hour_row) :
  let m := max_from Qgtb latency_key first others in
  exists pre post,
    first :: others = pre ++ m :: post
    /\ Forall (fun x => (latency_key x < latency_key m)%Q) pre
    /\ Forall (fun x => (latency_key x <= latency_key m)%Q) post.
Proof.
  intros m.
  destruct (max_from_first_maximum Qgtb Qle latency_key Qle_trans Qle_refl)
    with (best := first) (l := others) as (_ & pre & post & Heq & Hpre & Hpost).
  - intros x y H. apply Qgtb_true in H. split; [now apply Qlt_le_weak|].
    now apply Qlt_not_le.
  - intros x y H. now apply Qgtb_false.
  - exists pre, post. fold m in Heq, Hpre, Hpost. repeat split; auto.
    eapply Forall_impl; [exact Hpre|]. intros x [_ Hx]. simpl in Hx.
    now apply Qnot_le_lt.
Qed.

(** X25.  When some hour of the breakdown saw a time-out, the worst hour
    is chosen by time-outs, never by latency: it is the first hour, in the
    order of the breakdown, with the largest time-out count, and the value
    reported is that count. *)
Theorem worst_hour_prefers_timeouts (rows : list hour_row) :
  Exists (fun r => (0 < timeouts_key r)%Z) rows ->
  exists pre r post,
    rows = pre ++ r :: post
    /\ worst_hour rows
       = Some {| worst_hour_of := hour r; reason := "timeouts";
                 value := inject_Z (timeouts_key r) |}
    /\ Forall (fun x => (timeouts_key x < timeouts_key r)%Z) pre
    /\ Forall (fun x => (timeouts_key x <= timeouts_key r)%Z) post.
Proof.
  intros Hex. destruct rows as [|first others]; [inversion Hex|].
  destruct (worst_by_timeouts_first_maximum first others)
    as (pre & post & Heq & Hpre & Hpost).
  set (m := max_from Z.gtb timeouts_key first others) in *.
  exists pre, m, post. split; [exact Heq|]. split; [|auto].
  assert (Hpos : (0 < timeouts_key m)%Z).
  { apply Exists_exists in Hex as (r0 & Hin & Hr0). rewrite Heq in Hin.
    apply elem_of_app in Hin as [Hin|Hin].
    - rewrite Forall_forall in Hpre. specialize (Hpre r0 Hin). lia.
    - apply elem_of_cons in Hin as [->|Hin]; [exact Hr0|].
      rewrite Forall_forall in Hpost. specialize (Hpost r0 Hin). lia. }
  unfold worst_hour. fold m. unfold timeouts_key in *.
  destruct (timeouts m) as [n|]; simpl in *; [|lia].
  destruct (Z.eqb_spec n 0) as [->|_]; [lia|].
  destruct (Z.gtb_spec n 0) as [_|H]; [reflexivity|lia].
Qed.

Lemma worst_hour_prefers_timeouts_witness :
  worst_hour Samples.breakdown_with_timeouts
  = Some {| worst_hour_of := "09"; reason := "timeouts"; value := 3 |}.
Proof.
  destruct (worst_hour_prefers_timeouts Samples.breakdown_with_timeouts)
    as (pre & r & post & Heq & Hw & _).
  - apply Exists_cons_hd. reflexivity.
  - reflexivity.
Defined.

(** X26.  When no hour saw a time-out, the worst hour is chosen by average
    latency: it is the first hour with the largest average, reported with
    that average; and none is reported when the breakdown is empty or no
    hour has a positive average latency. *)
Theorem worst_hour_falls_back_to_latency (rows : list hour_row) :
  Forall (fun r => (timeouts_key r <= 0)%Z) rows ->
  match worst_hour rows with
  | Some w =>
      reason w = "high_latency"
      /\ exists pre r post,
           rows = pre ++ r :: post
           /\ worst_hour_of w = hour r /\ avg_latency r = Some (value w)
           /\ ~ (value w == 0)%Q
           /\ Forall (fun x => (latency_key x < value w)%Q) pre
           /\ Forall (fun x => (latency_key x <= value w)%Q) post
  | None => Forall (fun r => (latency_key r <= 0)%Q) rows
  end.
Proof.
  intros Hno. destruct rows as [|first others]; [constructor|].
  destruct (worst_by_timeouts_first_maximum first others)
    as (pre0 & post0 & Heq0 & _ & _).
  destruct (worst_by_latency_first_maximum first others)
    as (pre & post & Heq & Hpre & Hpost).
  set (mt := max_from Z.gtb timeouts_key first others) in *.
  set (m := max_from Qgtb latency_key first others) in *.
  assert (Hmt : (timeouts_key mt <= 0)%Z).
  { rewrite Forall_forall in Hno. apply Hno. rewrite Heq0.
    apply elem_of_app. right. constructor. }
  assert (Hlat :
    match (match avg_latency m with
           | Some l => if Qnonzero l
                       then Some {| worst_hour_of := hour m;
                                    reason := "high_latency"; value := l |}
                       else None
           | None => None
           end) with
    | Some w =>
        reason w = "high_latency"
        /\ exists pre r post,
             first :: others = pre ++ r :: post
             /\ worst_hour_of w = hour r /\ avg_latency r = Some (value w)
             /\ ~ (value w == 0)%Q
             /\ Forall (fun x => (latency_key x < value w)%Q) pre
             /\ Forall (fun x => (latency_key x <= value w)%Q) post
    | None => Forall (fun r => (latency_key r <= 0)%Q) (first :: others)
    end).
  { assert (Hall : forall b : Q, (latency_key m <= b)%Q ->
                     Forall (fun r => (latency_key r <= b)%Q) (first :: others)).
    { intros b Hb. rewrite Heq. apply Forall_app. split; [|constructor].
      - eapply Forall_impl; [exact Hpre|]. intros x Hx. cbv beta in Hx.
        apply Qlt_le_weak. exact (Qlt_le_trans _ _ _ Hx Hb).
      - exact Hb.
      - eapply Forall_impl; [exact Hpost|]. intros x Hx. cbv beta in Hx.
        exact (Qle_trans _ _ _ Hx Hb). }
    destruct (avg_latency m) as [l|] eqn:El.
    - assert (Hk : latency_key m = l) by (unfold latency_key; now rewrite El).
      rewrite Hk in Hpre, Hpost, Hall.
      destruct (Qnonzero l) eqn:Enz.
      + split; [reflexivity|]. exists pre, m, post. simpl.
        repeat split; auto.
        unfold Qnonzero in Enz. apply negb_true_iff in Enz.
        now apply Qeq_bool_neq.
      + apply Hall. unfold Qnonzero in Enz. apply negb_false_iff in Enz.
        apply Qeq_bool_iff in Enz. rewrite Enz. apply Qle_refl.
    - assert (Hk : latency_key m = 0%Q) by (unfold latency_key; now rewrite El).
      apply Hall. rewrite Hk. apply Qle_refl. }
  unfold worst_hour. fold mt m. unfold timeouts_key in Hmt.
  destruct (timeouts mt) as [n|]; simpl in *; [|exact Hlat].
  destruct (Z.eqb_spec n 0) as [->|_]; simpl; [exact Hlat|].
  destruct (Z.gtb_spec n 0) as [H|_]; [lia|exact Hlat].
Qed.

Lemma worst_hour_falls_back_to_latency_witness :
  reason <$> worst_hour Samples.breakdown_without_timeouts = Some "high_latency".
Proof.
  pose proof (worst_hour_falls_back_to_latency Samples.breakdown_without_timeouts) as H.
  assert (HF : Forall (fun r => (timeouts_key r <= 0)%Z)
                      Samples.breakdown_without_timeouts)
    by (repeat constructor; vm_compute; discriminate).
  specialize (H HF).
  destruct (worst_hour Samples.breakdown_without_timeouts) as [w|].
  - simpl. f_equal. apply H.
  - exfalso. inversion H as [|? ? H1 _]. vm_compute in H1. now apply H1.
Defined.



(** A page size of 0 makes [get_ping_logs_paginated] fail with
    [ZeroDivisionError], whatever the table holds, after both queries have
    run. *)
Theorem paginated_zero_page_size
    (Row : Type) (count_rows : string -> list sql_param -> Z)
    (select_rows : string -> list sql_param -> list Row)
    (target_name status_filter : option string) (page : Z) :
  get_ping_logs_paginated Row count_rows select_rows
    target_name page 0 status_filter = Raise ZeroDivisionError.
Proof.
  unfold get_ping_logs_paginated.
  destruct (where_clause target_name status_filter) as [clause params].
  reflexivity.
Qed.

(** X28.  The [WHERE] clause of the paginated query has exactly one
    placeholder per bound parameter; it is empty exactly when nothing is
    bound; and a filter given as the empty string is ignored like a
    missing one. *)
Theorem where_clause_placeholders (target_name status_filter : option string) :
  let '(clause, params) := where_clause target_name status_filter in
  occurrences "?" clause = length params
  /\ (clause = "" <-> params = [])
  /\ where_clause (Some "") status_filter = where_clause None status_filter
  /\ where_clause target_name (Some "") = where_clause target_name None.
Proof.
  destruct target_name as [[|c t]|], status_filter as [[|d s]|]; simpl;
    repeat split; try reflexivity; try discriminate.
Qed.

(** ** Parsing the summary of the Windows tool *)

Section StringFacts.

Lemma string_app_nil_r (s : string) : s +:+ "" = s.
Proof.
  induction s as [|c s IH]; [reflexivity|].
  change (String c s +:+ "") with (String c (s +:+ "")). now rewrite IH.
Qed.

Lemma string_app_assoc (a b c : string) : (a +:+ b) +:+ c = a +:+ (b +:+ c).
Proof.
  induction a as [|x a IH]; [reflexivity|].
  change (String x ((a +:+ b) +:+ c) = String x (a +:+ (b +:+ c))). now rewrite IH.
Qed.

Lemma chars_app (a b : string) :
  list_ascii_of_string (a +:+ b) = list_ascii_of_string a ++ list_ascii_of_string b.
Proof.
  induction a as [|x a IH]; [reflexivity|].
  change (x :: list_ascii_of_string (a +:+ b)
          = x :: (list_ascii_of_string a ++ list_ascii_of_string b)).
  now rewrite IH.
Qed.

Lemma string_of_chars_app (a b : list ascii) :
  string_of_list_ascii (a ++ b) = string_of_list_ascii a +:+ string_of_list_ascii b.
Proof.
  induction a as [|x a IH]; [reflexivity|].
  change (String x (string_of_list_ascii (a ++ b))
          = String x (string_of_list_ascii a +:+ string_of_list_ascii b)).
  now rewrite IH.
Qed.

Lemma lower_app (a b : string) : lower (a +:+ b) = lower a +:+ lower b.
Proof.
  induction a as [|x a IH]; [reflexivity|].
  change (String (lower_ascii x) (lower (a +:+ b))
          = String (lower_ascii x) (lower a +:+ lower b)).
  now rewrite IH.
Qed.

Lemma contains_app_r (needle a b : string) :
  contains needle b = true -> contains needle (a +:+ b) = true.
Proof.
  intros H. induction a as [|x a IH]; [exact H|].
  change (String x a +:+ b) with (String x (a +:+ b)). simpl.
  rewrite IH. now destruct (match needle with "" => true | _ => _ end).
Qed.

Lemma contains_char (c : ascii) (s : string) :
  contains (String c "") s = true <-> In c (list_ascii_of_string s).
Proof.
  induction s as [|d s IH]; simpl.
  - split; [discriminate|intros []].
  - destruct (ascii_dec c d) as [->|Hne].
    + destruct s; simpl; split; auto.
    + rewrite IH. split; [auto|]. intros [H|H]; [congruence|exact H].
Qed.

Lemma words_from_nonspace (cur : list ascii) (p rest : string) :
  Forall (fun c => is_space c = false) (list_ascii_of_string p) ->
  words_from cur (p +:+ rest) = words_from (rev (list_ascii_of_string p) ++ cur) rest.
Proof.
  revert cur. induction p as [|c p IH]; intros cur H; [reflexivity|].
  change (String c p +:+ rest) with (String c (p +:+ rest)).
  simpl in H. inversion H as [|? ? Hc Hp]; subst.
  simpl. rewrite Hc, (IH (c :: cur) Hp), <- app_assoc. reflexivity.
Qed.

Lemma words_from_app_space (cur : list ascii) (a : string) (sp : ascii) (rest : string) :
  is_space sp = true ->
  words_from cur (a +:+ String sp rest) = words_from cur a ++ words_from [] rest.
Proof.
  intros Hsp. revert cur. induction a as [|c a IH]; intros cur.
  - change ("" +:+ String sp rest) with (String sp rest). simpl. now rewrite Hsp.
  - change (String c a +:+ String sp rest) with (String c (a +:+ String sp rest)).
    simpl. destruct (is_space c).
    + rewrite IH, app_assoc. reflexivity.
    + apply IH.
Qed.

Lemma chars_of_string_of_chars (l : list ascii) :
  list_ascii_of_string (string_of_list_ascii l) = l.
Proof. apply list_ascii_of_string_of_list_ascii. Qed.

Lemma words_from_no_char (c : ascii) (cur : list ascii) (s : string) :
  ~ In c cur -> ~ In c (list_ascii_of_string s) ->
  Forall (fun w => ~ In c (list_ascii_of_string w)) (words_from cur s).
Proof.
  revert cur. induction s as [|d s IH]; intros cur Hcur Hs; simpl.
  - destruct cur as [|x cur]; constructor; [|constructor].
    rewrite chars_of_string_of_chars. rewrite <- in_rev. exact Hcur.
  - simpl in Hs. destruct (is_space d).
    + apply Forall_app. split.
      * destruct cur as [|x cur]; constructor; [|constructor].
        rewrite chars_of_string_of_chars. rewrite <- in_rev. exact Hcur.
      * apply IH; [intros []|tauto].
    + apply IH; [|tauto]. intros [H|H]; [subst; tauto|contradiction].
Qed.

Lemma first_return_skip {A B} (f : A -> option B) (l1 : list A) (x : A) (l2 : list A) :
  Forall (fun y => f y = None) l1 ->
  first_return f (l1 ++ x :: l2)
  = match f x with
    | Some b => Some b
    | None => first_return f l2
    end.
Proof.
  induction 1 as [|y l1 Hy _ IH]; simpl; [reflexivity|]. now rewrite Hy.
Qed.

Lemma replace_char_app (c : ascii) (new a b : string) :
  ~ In c (list_ascii_of_string a) ->
  replace_from (String c "") new 0 (a +:+ b)
  = a +:+ replace_from (String c "") new 0 b.
Proof.
  induction a as [|d a IH]; intros H; [reflexivity|].
  change (String d a +:+ b) with (String d (a +:+ b)).
  simpl in H. simpl. destruct (ascii_dec c d) as [->|Hne]; [tauto|].
  rewrite IH by tauto. reflexivity.
Qed.

Lemma replace_char_absent (c : ascii) (new s : string) :
  ~ In c (list_ascii_of_string s) -> replace (String c "") new s = s.
Proof.
  intros H. unfold replace.
  rewrite <- (string_app_nil_r s) at 1.
  rewrite (replace_char_app c new s "" H). apply string_app_nil_r.
Qed.

End StringFacts.

Lemma loss_line_windows (float : string -> option Q) (text percent rest : string) :
  (forall s, float (String "(" s) = None) ->
  ~ In "%"%char (list_ascii_of_string text) ->
  Forall (fun c => is_space c = false /\ c <> "%"%char /\ c <> ","%char)
         (list_ascii_of_string percent) ->
  contains "loss" (lower rest) = true ->
  loss_line float (windows_statistics text percent rest) = Some None.
Proof.
  intros Hfloat Htext Hp Hrest. unfold loss_line, windows_statistics.
  assert (Hloss : contains "loss"
                    (lower (text +:+ " (" +:+ percent +:+ "% " +:+ rest)) = true).
  { rewrite !lower_app. do 4 apply contains_app_r. exact Hrest. }
  rewrite Hloss. unfold split_ws.
  change (text +:+ " (" +:+ percent +:+ "% " +:+ rest)
    with (text +:+ String " " (String "(" (percent +:+ String "%" (String " " rest)))).
  rewrite (words_from_app_space [] text " " _ eq_refl).
  assert (Hw : words_from [] (String "(" (percent +:+ String "%" (String " " rest)))
               = String "(" (percent +:+ "%") :: words_from [] rest).
  { change (words_from [] (String "(" (percent +:+ String "%" (String " " rest))))
      with (words_from ["("%char] (percent +:+ String "%" (String " " rest))).
    rewrite words_from_nonspace
      by (eapply Forall_impl; [exact Hp|]; intros c Hc; apply Hc).
    simpl. f_equal.
    rewrite rev_app_distr, rev_involutive. simpl.
    rewrite string_of_chars_app, string_of_list_ascii_of_string.
    reflexivity. }
  rewrite Hw. rewrite first_return_skip.
  - assert (Hpc : In "%"%char (list_ascii_of_string (String "(" (percent +:+ "%")))).
    { simpl. right. rewrite chars_app. apply in_or_app. right. simpl. auto. }
    apply contains_char in Hpc. rewrite Hpc. do 2 f_equal.
    assert (Hclean : forall c, c = "%"%char \/ c = ","%char ->
                       ~ In c (list_ascii_of_string (String "(" percent))).
    { intros c Hc [H|H].
      - destruct Hc; subst; discriminate.
      - rewrite Forall_forall in Hp. apply list_elem_of_In in H.
        destruct (Hp c H) as (_ & H1 & H2). destruct Hc; contradiction. }
    assert (Hr : replace "%" "" (String "(" (percent +:+ "%")) = String "(" percent).
    { unfold replace.
      change (String "(" (percent +:+ "%")) with (String "(" percent +:+ "%").
      rewrite replace_char_app by (apply Hclean; auto).
      simpl. apply string_app_nil_r. }
    rewrite Hr, replace_char_absent by (apply Hclean; auto). apply Hfloat.
  - eapply Forall_impl; [apply (words_from_no_char "%" [] text); auto|].
    intros w Hw'. cbv beta in Hw'.
    destruct (contains "%" w) eqn:E; [|reflexivity].
    apply contains_char in E. contradiction.
Qed.

(** X30.  When the first line of the output that mentions a loss is a
    summary in the format of the Windows tool, the word holding the
    percent sign opens with a parenthesis, [float] rejects it, and the
    loss is reported as 0 whatever the line says; a probe that also finds
    no latency then ends as ['partial'] with loss 0, not as
    ['timeout']. *)
Theorem windows_loss_is_not_parsed
    (float : string -> option Q) (system output text percent rest : string)
    (before after : list string) :
  (forall s, float (String "(" s) = None) ->
  split newline output = before ++ windows_statistics text percent rest :: after ->
  Forall (fun l => contains "loss" (lower l) = false) before ->
  ~ In "%"%char (list_ascii_of_string text) ->
  Forall (fun c => is_space c = false /\ c <> "%"%char /\ c <> ","%char)
         (list_ascii_of_string percent) ->
  contains "loss" (lower rest) = true ->
  _parse_packet_loss float output system = 0%Q
  /\ forall exec ip count timeout,
       exec (ping_cmd system ip count timeout) (timeout * count + 5)%Z = Output output ->
       _parse_latency float output system = None ->
       fst (ping float system exec ip count timeout) = (None, 0%Q, "partial").
Proof.
  intros Hfloat Hsplit Hbefore Htext Hp Hrest.
  assert (Hloss : _parse_packet_loss float output system = 0%Q).
  { unfold _parse_packet_loss. rewrite Hsplit, first_return_skip.
    - now rewrite (loss_line_windows float text percent rest Hfloat Htext Hp Hrest).
    - eapply Forall_impl; [exact Hbefore|]. intros l Hl. unfold loss_line.
      now rewrite Hl. }
  split; [exact Hloss|].
  intros exec ip count timeout Hexec Hlat. unfold ping.
  rewrite Hexec, Hlat, Hloss. reflexivity.
Qed.

Lemma demo_float_rejects_parenthesis (s : string) : Demo.float (String "(" s) = None.
Proof.
  unfold Demo.float, strip. simpl.
  destruct (rstrip s); reflexivity.
Qed.

Lemma windows_loss_is_not_parsed_witness :
  _parse_packet_loss Demo.float Samples.windows_all_lost "windows" = 0%Q.
Proof.
  apply (windows_loss_is_not_parsed Demo.float "windows" Samples.windows_all_lost
           "    Packets: Sent = 3, Received = 0, Lost = 3" "100" "loss),"
           [ "Pinging 10.0.0.3 with 32 bytes of data:"; "Request timed out.";
             "Request timed out."; "Request timed out.";
             "Ping statistics for 10.0.0.3:" ]
           [""]).
  - exact demo_float_rejects_parenthesis.
  - reflexivity.
  - repeat constructor.
  - vm_compute. intuition discriminate.
  - repeat constructor; discriminate.
  - reflexivity.
Defined.

(** X29.  Whatever the configuration and the tables, an alert found in
    the alerts table after the alerts of one result were evaluated was
    there before, or is a [high_latency] warning for that result's target,
    or is a [packet_loss] alert for it that is critical exactly when the
    loss is above 50. *)
Theorem saved_alert_severity
    (cfg : config) (result : PingResult) (d : database) (al : alert) :
  In al (alerts_table (check_alerts cfg result d).2) ->
  In al (alerts_table d)
  \/ (alert_type al = "high_latency" /\ severity al = "warning"
      /\ alert_target_name al = target_name result)
  \/ (alert_type al = "packet_loss"
      /\ severity al = (if Qgtb (packet_loss result) 50 then "critical" else "warning")
      /\ alert_target_name al = target_name result).
Proof.
  unfold check_alerts, save_alert.
  destruct (default false _); [|auto].
  destruct (latency_ms result) as [l|]; simpl;
    [destruct (Qnonzero l && Qgtb l _)%bool; simpl;
       [destruct (ping_threshold_ms _); simpl; [|auto]|]|];
    (destruct (Qgtb (packet_loss result) _); simpl;
       [destruct (packet_loss_threshold_percent _); simpl|]);
    rewrite ?in_app_iff; simpl;
    intuition (subst; simpl; auto).
Qed.

(** A loss of 60 percent against a threshold of 5: the alert is critical. *)
Lemma saved_alert_severity_witness :
  In {| alert_type := "packet_loss"; alert_target_name := "A";
        message := PacketLossDetected 60 5; severity := "critical" |} []
  \/ ("packet_loss" = "high_latency" /\ "critical" = "warning" /\ "A" = "A")
  \/ ("packet_loss" = "packet_loss"
      /\ "critical" = (if Qgtb 60 50 then "critical" else "warning")
      /\ "A" = "A").
Proof.
  apply (saved_alert_severity
           (Demo.alerts_only (Some true) (Some 100%Q) (Some 5%Q))
           (Demo.probe None 60 "partial") Demo.no_rows
           {| alert_type := "packet_loss"; alert_target_name := "A";
              message := PacketLossDetected 60 5; severity := "critical" |}).
  simpl. left. reflexivity.
Defined.
